(** * File-Cleaner-Utility: the scan / filter / delete / reconcile core of
    [Cleaner.py], embedded in Rocq.

    Conventions of the embedding.
    - Python [str] is modelled by [string] over the 8-bit alphabet [ascii];
      case mapping and white space follow Python on the ASCII range.
    - Python [int] is [Z]; lists and tuples are [list]; a [dict] with string
      keys is a [gmap string _].
    - An exception is a value of [exn]; code that can raise returns a
      [result].  Interactive code threads a [world]: the lines still to
      be typed on standard input, the disk, the history file, the console.
    - What the program prints is recorded in the world's trace, next to the
      system calls that change the disk.  Lines whose text depends on data
      outside the model (the home directory, elapsed time, sizes rendered
      through floating point) and the prompts of [input] are left out. *)

From Stdlib Require Import ZArith String Ascii List Lia Bool.
From Stdlib Require Import Floats.SpecFloat.
From stdpp Require Import base option list gmap strings sets pretty.

Open Scope string_scope.
Open Scope list_scope.
Open Scope Z_scope.

(* ================================================================== *)
(** * Definitions *)
(* ================================================================== *)

(** ** Exceptions *)

(** The subclasses of [OSError] that the program distinguishes. *)
Inductive os_error :=
| FileNotFoundError
| PermissionError
| NotADirectoryError
| IsADirectoryError
| OtherOSError.

Inductive exn :=
| OSError (e : os_error)
| ValueError
| TypeError
| IndexError
| ZeroDivisionError
| EOFError
| SystemExit.

Inductive result (A : Type) :=
| Ok (a : A)
| Raise (e : exn).
Arguments Ok {A} a.
Arguments Raise {A} e.

Definition rbind {A B} (r : result A) (k : A -> result B) : result B :=
  match r with
  | Ok a => k a
  | Raise e => Raise e
  end.

Definition is_ok {A} (r : result A) : bool :=
  match r with Ok _ => true | Raise _ => false end.

(** ** Python strings *)

Module Py.

Definition newline : ascii := "010"%char.

(** [str.isspace] on the ASCII range. *)
Definition isspace (c : ascii) : bool :=
  let n := nat_of_ascii c in
  ((9 <=? n)%nat && (n <=? 13)%nat) || ((28 <=? n)%nat && (n <=? 32)%nat).

Definition isupper (c : ascii) : bool :=
  let n := nat_of_ascii c in (65 <=? n)%nat && (n <=? 90)%nat.

Definition isdigit_char (c : ascii) : bool :=
  let n := nat_of_ascii c in (48 <=? n)%nat && (n <=? 57)%nat.

Definition lower_char (c : ascii) : ascii :=
  if isupper c then ascii_of_nat (nat_of_ascii c + 32) else c.

(** [s.lower()] *)
Fixpoint lower (s : string) : string :=
  match s with
  | EmptyString => EmptyString
  | String c r => String (lower_char c) (lower r)
  end.

Fixpoint lstrip (s : string) : string :=
  match s with
  | EmptyString => EmptyString
  | String c r => if isspace c then lstrip r else s
  end.

Fixpoint rstrip (s : string) : string :=
  match s with
  | EmptyString => EmptyString
  | String c r =>
      match rstrip r with
      | EmptyString => if isspace c then EmptyString else String c EmptyString
      | r' => String c r'
      end
  end.

(** [s.strip()] *)
Definition strip (s : string) : string := rstrip (lstrip s).

(** [s.isdigit()]: non-empty and made of digits. *)
Fixpoint all_digits (s : string) : bool :=
  match s with
  | EmptyString => true
  | String c r => isdigit_char c && all_digits r
  end.

Definition isdigit (s : string) : bool :=
  match s with
  | EmptyString => false
  | _ => all_digits s
  end.

Fixpoint rev_string (acc s : string) : string :=
  match s with
  | EmptyString => acc
  | String c r => rev_string (String c acc) r
  end.

(** The scan of [str.split(sep)] for a non-empty [sep]: [skip] counts the
    characters of a separator just recognised that are still to be passed
    over, [acc] holds the current piece in reverse. *)
Fixpoint split_go (sep : string) (skip : nat) (acc : string) (s : string)
  : list string :=
  match s with
  | EmptyString => [rev_string EmptyString acc]
  | String c r =>
      match skip with
      | S k => split_go sep k acc r
      | O =>
          if String.prefix sep s
          then rev_string EmptyString acc
                 :: split_go sep (Nat.pred (String.length sep)) EmptyString r
          else split_go sep O (String c acc) r
      end
  end.

(** [s.split(sep)]; an empty separator raises [ValueError]. *)
Definition split (sep s : string) : result (list string) :=
  match sep with
  | EmptyString => Raise ValueError
  | _ => Ok (split_go sep O EmptyString s)
  end.

(** [l[-1]] on a non-empty list; [split] never returns an empty list. *)
Definition last_piece (l : list string) : string := List.last l EmptyString.

(** [l[i]]: a negative index counts from the end. *)
Definition getitem {A} (l : list A) (i : Z) : result A :=
  let n := Z.of_nat (length l) in
  let j := if i <? 0 then i + n else i in
  if (0 <=? j) && (j <? n) then
    match l !! Z.to_nat j with
    | Some x => Ok x
    | None => Raise IndexError
    end
  else Raise IndexError.

(** [x in t] for a tuple of strings. *)
Definition in_tuple (x : string) (t : list string) : bool :=
  existsb (String.eqb x) t.

Definition digit_value (c : ascii) : Z := Z.of_nat (nat_of_ascii c) - 48.

(** The digits of [int(s)]: decimal digits, with single underscores allowed
    between two digits. *)
Fixpoint int_digits (acc : Z) (after_digit : bool) (s : string) : option Z :=
  match s with
  | EmptyString => if after_digit then Some acc else None
  | String c r =>
      if isdigit_char c then int_digits (10 * acc + digit_value c) true r
      else if Ascii.eqb c "_" && after_digit then int_digits acc false r
      else None
  end.

(** [int(s)] for a string: white space around, an optional sign, digits.
    (The interpreter's limit on the number of digits is left out; it also
    raises [ValueError].) *)
Definition int (s : string) : result Z :=
  let body :=
    match strip s with
    | String c r =>
        if Ascii.eqb c "-" then option_map Z.opp (int_digits 0 false r)
        else if Ascii.eqb c "+" then int_digits 0 false r
        else int_digits 0 false (String c r)
    | EmptyString => None
    end in
  match body with
  | Some z => Ok z
  | None => Raise ValueError
  end.

Definition digit (n : Z) : ascii := ascii_of_nat (48 + Z.to_nat (n mod 10)).

(** [%02d] and [%04d] for a non-negative number that fits. *)
Definition pad2 (n : Z) : string :=
  String (digit (n / 10)) (String (digit n) EmptyString).
Definition pad4 (n : Z) : string :=
  String (digit (n / 1000)) (String (digit (n / 100)) (pad2 n)).

Definition dquote : string := String "034"%char EmptyString.
Definition nl : string := String newline EmptyString.

End Py.

(** ** The filter predicate *)

(** The policy's extension part: the string ['all'] or a tuple. *)
Inductive file_formats :=
| All
| Formats (t : list string).

(** The character class [[^./\\]] of the extension pattern. *)
Definition ext_char (c : ascii) : bool :=
  negb (Ascii.eqb c "." || Ascii.eqb c "/" || Ascii.eqb c "\").

(** [$] of Python's [re] without [MULTILINE]: the end of the string, or the
    position just before a newline that is the last character. *)
Definition at_dollar (rest : string) : bool :=
  match rest with
  | EmptyString => true
  | String c EmptyString => Ascii.eqb c Py.newline
  | _ => false
  end.

(** Up to [k] more characters of the class, greedily, then [$]; on failure
    the engine gives characters back one at a time.  Returns what the
    repetition consumed here. *)
Fixpoint match_class (k : nat) (rest : string) : option string :=
  match k, rest with
  | S k', String c rest' =>
      if ext_char c then
        match match_class k' rest' with
        | Some g => Some (String c g)
        | None => if at_dollar rest then Some EmptyString else None
        end
      else if at_dollar rest then Some EmptyString else None
  | _, _ => if at_dollar rest then Some EmptyString else None
  end.

(** The pattern [\.([^./\\]{1,10})$] anchored at the start of [s];
    returns group 1. *)
Definition match_here (s : string) : option string :=
  match s with
  | String d (String c rest) =>
      if Ascii.eqb d "." && ext_char c then
        match match_class 9 rest with
        | Some g => Some (String c g)
        | None => None
        end
      else None
  | _ => None
  end.

(** [search(pattern, s)]: the leftmost position where the pattern matches;
    the result is [valid_extension.group(1)]. *)
Fixpoint search (s : string) : option string :=
  match match_here s with
  | Some g => Some g
  | None =>
      match s with
      | EmptyString => None
      | String _ r => search r
      end
  end.

Definition get_file_by_format (file : string) (fmts : file_formats)
  (inversion : bool) : bool :=
  match fmts with
  | Formats t =>
      match search file with
      | Some extension =>
          let boolean := Py.in_tuple extension t in
          if inversion then negb boolean else boolean
      | None => false
      end
  | All => true
  end.

(** ** Values decoded from JSON *)

(** What [json.loads] can return.  A float is an IEEE double; [True] and
    [False] are instances of [int], as in Python. *)
#[warnings="-register-all"]
Inductive pyval :=
| VNone
| VBool (b : bool)
| VInt (z : Z)
| VFloat (f : spec_float)
| VStr (s : string)
| VList (l : list pyval)
| VDict (d : gmap string pyval).

Definition float_is_zero (f : spec_float) : bool :=
  match f with S754_zero _ => true | _ => false end.

(** [bool(v)] *)
Definition truthy (v : pyval) : bool :=
  match v with
  | VNone => false
  | VBool b => b
  | VInt z => negb (z =? 0)
  | VFloat f => negb (float_is_zero f)
  | VStr s => negb (String.eqb s EmptyString)
  | VList l => match l with [] => false | _ => true end
  | VDict d => negb (bool_decide (d = ∅))
  end.

Definition isinstance_list (v : pyval) : bool :=
  match v with VList _ => true | _ => false end.
Definition isinstance_bool (v : pyval) : bool :=
  match v with VBool _ => true | _ => false end.
Definition isinstance_str (v : pyval) : bool :=
  match v with VStr _ => true | _ => false end.
(** [isinstance(v, int)]: [bool] is a subclass of [int]. *)
Definition isinstance_int (v : pyval) : bool :=
  match v with VInt _ | VBool _ => true | _ => false end.

(** The integer an instance of [int] stands for in arithmetic and
    comparisons. *)
Definition int_value (v : pyval) : Z :=
  match v with
  | VInt z => z
  | VBool true => 1
  | _ => 0
  end.

(** [v == False] *)
Definition eq_False (v : pyval) : bool :=
  match v with
  | VBool b => negb b
  | VInt z => z =? 0
  | VFloat f => float_is_zero f
  | _ => false
  end.

Definition eq_str (v : pyval) (s : string) : bool :=
  match v with VStr t => String.eqb t s | _ => false end.

(** ** Persisted settings *)

Definition settings_keys : list string :=
  ["paths"; "sorting"; "output_files"; "output_extensions";
   "filter_by_size"; "indicator_output"; "cleaned_files_report"].


(** [k in d] *)
Definition has_key (d : gmap string pyval) (k : string) : bool :=
  bool_decide (is_Some (d !! k)).

(** [d[k]] for a key known to be present. *)
Definition item (d : gmap string pyval) (k : string) : pyval :=
  default VNone (d !! k).

(** The third test of [check_settings], on [settings['filter_by_size']]. *)
Definition filter_by_size_ok (fbs : pyval) : bool :=
  negb (truthy fbs)
  || match fbs with
     | VList [a; b] =>
         isinstance_int a && isinstance_int b
         && ((int_value a <? int_value b)
             && (0 <=? int_value a) && (0 <? int_value b))
     | _ => false
     end.

Definition check_settings (settings default : gmap string pyval)
  : gmap string pyval :=
  if negb (Nat.eqb (size settings) 7)
     || negb (forallb (has_key settings) settings_keys)
  then default
  else if negb (isinstance_list (item settings "paths"))
          || negb (eq_False (item settings "sorting")
                   || eq_str (item settings "sorting") "alphabet"
                   || eq_str (item settings "sorting") "size")
          || negb (isinstance_bool (item settings "output_files"))
          || negb (isinstance_bool (item settings "output_extensions"))
          || negb (isinstance_bool (item settings "indicator_output"))
          || negb (isinstance_bool (item settings "cleaned_files_report"))
  then default
  else if negb (filter_by_size_ok (item settings "filter_by_size"))
  then default
  else settings.

(** ** Reading a JSON file *)

(** A file of the configuration directory, as [get_json_content] meets it:
    missing, not openable, or holding a text, which is represented by what
    [json.loads] makes of it ([None] when it raises [JSONDecodeError]). *)
Inductive file_state :=
| Absent
| Denied
| Content (decoded : option pyval).

Definition get_json_content (f : file_state) (default_config : gmap string pyval)
  : result (gmap string pyval * gmap string pyval) :=
  match f with
  | Absent => Ok (default_config, default_config)
  | Denied => Raise (OSError PermissionError)
  | Content None => Ok (default_config, default_config)
  | Content (Some (VDict d)) => Ok (d, default_config)
  | Content (Some _) => Ok (default_config, default_config)
  end.

(** ** Dates *)

(** [datetime.date]: proleptic Gregorian, years 1 to 9999. *)
Record date := Date { year : Z; month : Z; day : Z }.

Definition is_leap (y : Z) : bool :=
  ((y mod 4 =? 0) && negb (y mod 100 =? 0)) || (y mod 400 =? 0).

Definition days_in_month (y m : Z) : Z :=
  if m =? 2 then (if is_leap y then 29 else 28)
  else if (m =? 4) || (m =? 6) || (m =? 9) || (m =? 11) then 30
  else 31.

Definition valid_date (y m d : Z) : bool :=
  (1 <=? y) && (y <=? 9999) && (1 <=? m) && (m <=? 12)
  && (1 <=? d) && (d <=? days_in_month y m).

(** [date(year, month, day)] *)
Definition date_new (y m d : Z) : result date :=
  if valid_date y m d then Ok (Date y m d) else Raise ValueError.

(** [a <= b] on dates. *)
Definition date_le (a b : date) : bool :=
  (year a <? year b)
  || ((year a =? year b)
      && ((month a <? month b)
          || ((month a =? month b) && (day a <=? day b)))).

(** [a > b] on dates. *)
Definition date_gt (a b : date) : bool := negb (date_le a b).

(** [str(d)]: ISO format. *)
Definition date_str (d : date) : string :=
  Py.pad4 (year d) +:+ "-" +:+ Py.pad2 (month d) +:+ "-" +:+ Py.pad2 (day d).

(** ** The history record *)

Definition data_keys : list string :=
  ["date_of_first_deletion"; "date_of_last_deletion"; "number_of_deletions";
   "number_of_deleted_files"; "total_weight_of_deleted_files"].

Definition default_data : gmap string pyval :=
  list_to_map
    [("date_of_first_deletion", VStr "0001-01-01");
     ("date_of_last_deletion", VStr "0001-01-01");
     ("number_of_deletions", VInt 0);
     ("number_of_deleted_files", VInt 0);
     ("total_weight_of_deleted_files", VInt 0)].

(** [year, month, day = map(int, my_date.split('-'))] *)
Definition year_month_day (my_date : string) : result (Z * Z * Z) :=
  rbind (Py.split "-" my_date) (fun pieces =>
  match pieces with
  | [y; m; d] =>
      rbind (Py.int y) (fun y =>
      rbind (Py.int m) (fun m =>
      rbind (Py.int d) (fun d => Ok (y, m, d))))
  | _ => Raise ValueError
  end).

(** One round of the loop of [is_valid_dates]: [None] where the loop
    returns [False]. *)
Definition to_date (my_date : pyval) : option date :=
  match my_date with
  | VStr s =>
      match rbind (year_month_day s) (fun '(y, m, d) => date_new y m d) with
      | Ok x => Some x
      | Raise _ => None
      end
  | _ => None
  end.

Definition is_valid_dates (today : date) (my_dates : pyval * pyval) : bool :=
  match to_date (fst my_dates) with
  | None => false
  | Some d0 =>
      match to_date (snd my_dates) with
      | None => false
      | Some d1 =>
          if date_gt d0 d1 || date_gt d1 today then false else true
      end
  end.

Definition valid_counter (num : pyval) : bool :=
  isinstance_int num && (0 <=? int_value num).

Definition check_data (today : date) (data default : gmap string pyval)
  : gmap string pyval :=
  if negb (Nat.eqb (size data) 5)
     || negb (forallb (has_key data) data_keys)
  then default
  else
    let my_dates := (item data "date_of_first_deletion",
                     item data "date_of_last_deletion") in
    let numbers := [item data "number_of_deletions";
                    item data "number_of_deleted_files";
                    item data "total_weight_of_deleted_files"] in
    if negb (is_valid_dates today my_dates) || negb (forallb valid_counter numbers)
    then default
    else data.

(** ** The file system *)

Inductive kind := File | Directory.

(** An entry of the disk, stored under its full path: the directory it
    sits in, its size, and the error the system answers to an attempt to
    unlink it ([None] when the attempt is allowed). *)
Record inode := Inode {
  i_kind : kind;
  i_parent : string;
  i_size : Z;
  i_guard : option os_error }.

Abbreviation disk_state := (gmap string inode).

(** The result of a system call. *)
Inductive outcome (A : Type) :=
| Success (a : A)
| Failure (e : os_error).
Arguments Success {A} a.
Arguments Failure {A} e.

(** [os.path.exists(p)]: [os.stat] succeeds. *)
Definition os_path_exists (d : disk_state) (p : string) : bool :=
  bool_decide (is_Some (d !! p)).

(** [os.path.getsize(p)]: [os.stat(p).st_size]. *)
Definition os_path_getsize (d : disk_state) (p : string) : outcome Z :=
  match d !! p with
  | Some n => Success (i_size n)
  | None => Failure FileNotFoundError
  end.

(** [os.listdir(p)], as far as its failure goes. *)
Definition os_listdir (d : disk_state) (p : string) : outcome unit :=
  match d !! p with
  | None => Failure FileNotFoundError
  | Some n =>
      match i_kind n with
      | Directory => Success tt
      | File => Failure NotADirectoryError
      end
  end.

(** [os.remove(p)] *)
Definition os_remove (d : disk_state) (p : string) : outcome disk_state :=
  match d !! p with
  | None => Failure FileNotFoundError
  | Some n =>
      match i_kind n with
      | Directory => Failure IsADirectoryError
      | File =>
          match i_guard n with
          | Some e => Failure e
          | None => Success (delete p d)
          end
      end
  end.

Definition has_entries (d : disk_state) (p : string) : bool :=
  bool_decide (map_Exists (λ _ n, i_parent n = p) d).

(** [os.rmdir(p)]: a directory that still has an entry is refused (the
    system's "directory not empty" is a plain [OSError]). *)
Definition os_rmdir (d : disk_state) (p : string) : outcome disk_state :=
  match d !! p with
  | None => Failure FileNotFoundError
  | Some n =>
      match i_kind n with
      | File => Failure NotADirectoryError
      | Directory =>
          if has_entries d p then Failure OtherOSError
          else match i_guard n with
               | Some e => Failure e
               | None => Success (delete p d)
               end
      end
  end.

(** What the program takes from the platform: the traversal order of
    [os.walk] (top-down or bottom-up; each item is a directory, its
    sub-directory names and its file names), [os.path.join],
    [os.cpu_count()], and [shutil.copy] / [shutil.move]. *)
Record platform := Platform {
  os_walk : bool -> disk_state -> string
            -> list (string * list string * list string);
  os_path_join : string -> string -> string;
  os_cpu_count : option nat;
  shutil_transfer : bool -> string -> string -> disk_state
                    -> outcome disk_state }.

(** ** The scanner *)

(** [filter_by_size] once validated: [False], or the two bounds. *)
Definition size_filter := option (Z * Z).

Definition size_filter_of (v : pyval) : size_filter :=
  if truthy v then
    match v with
    | VList [a; b] => Some (int_value a, int_value b)
    | _ => None
    end
  else None.

(** [not filter_by_size or filter_by_size[0] <= file_size <= filter_by_size[1]] *)
Definition size_test (filter_by_size : size_filter) (file_size : Z) : bool :=
  match filter_by_size with
  | None => true
  | Some (lo, hi) => (lo <=? file_size) && (file_size <=? hi)
  end.

(** [(total_size, files_and_size, list_of_full_file_paths)] *)
Definition totals : Type := Z * list (string * Z) * list string.

(** A [for] loop whose body may raise. *)
Definition for_each {A S : Type} (l : list A) (body : S -> A -> result S)
  (init : S) : result S :=
  fold_left (fun acc x => rbind acc (fun st => body st x)) l (Ok init).

Definition lift_os {A} (o : outcome A) : result A :=
  match o with
  | Success a => Ok a
  | Failure e => Raise (OSError e)
  end.

Section Scanner.

Variable os : platform.
Variable d : disk_state.

Definition get_information_about_files (file_formats : file_formats)
  (inversion : bool) (filter_by_size : size_filter) (s : string)
  (directories_and_files : list (string * list string)) : result totals :=
  for_each directories_and_files
    (fun st directory_and_files =>
       let directory := fst directory_and_files in
       let files := snd directory_and_files in
       for_each files
         (fun '(total_size, files_and_size, list_of_full_file_paths) file =>
            let full_file_path := os_path_join os directory file in
            let format_verification :=
              get_file_by_format full_file_path file_formats inversion in
            if format_verification && os_path_exists d full_file_path then
              rbind (Py.split s full_file_path) (fun pieces =>
              let file_name := Py.last_piece pieces in
              rbind (lift_os (os_path_getsize d full_file_path)) (fun file_size =>
              if size_test filter_by_size file_size then
                Ok (total_size + file_size,
                    files_and_size ++ [(file_name, file_size)],
                    list_of_full_file_paths ++ [full_file_path])
              else Ok (total_size, files_and_size, list_of_full_file_paths)))
            else Ok (total_size, files_and_size, list_of_full_file_paths))
         st)
    (0, [], []).

Definition get_all_files_windows (path : string) (file_formats : file_formats)
  (inversion : bool) (filter_by_size : size_filter) (s : string)
  : result totals :=
  for_each (os_walk os true d path)
    (fun st '(root, _, files) =>
       for_each files
         (fun '(total_size, files_and_size, list_of_full_file_paths) file =>
            let full_file_path := os_path_join os root file in
            let format_verification :=
              get_file_by_format full_file_path file_formats inversion in
            if format_verification && os_path_exists d full_file_path then
              rbind (Py.split s full_file_path) (fun pieces =>
              let file_name := Py.last_piece pieces in
              rbind (lift_os (os_path_getsize d full_file_path)) (fun file_size =>
              if size_test filter_by_size file_size then
                Ok (total_size + file_size,
                    files_and_size ++ [(file_name, file_size)],
                    list_of_full_file_paths ++ [full_file_path])
              else Ok (total_size, files_and_size, list_of_full_file_paths)))
            else Ok (total_size, files_and_size, list_of_full_file_paths))
         st)
    (0, [], []).

(** The first loop of [get_all_files]: the walk dealt out to [num_cores]
    task lists by a running counter.  Returns the counter and the tasks. *)
Definition assign_tasks (num_cores : nat)
  (walk : list (string * list string * list string))
  : result (nat * list (list (string * list string))) :=
  for_each walk
    (fun '(counter, tasks) '(root, _, files) =>
       if Nat.eqb num_cores 0 then Raise ZeroDivisionError
       else
         let task_number := (counter mod num_cores)%nat in
         Ok (S counter, alter (fun t => t ++ [(root, files)]) task_number tasks))
    (O, replicate num_cores []).

(** [get_all_files]: the pool maps the pure worker function over the tasks
    and hands the results back in task order; the first worker exception
    is raised when its result is reached. *)
Definition get_all_files (path : string) (file_formats : file_formats)
  (inversion : bool) (filter_by_size : size_filter) (s : string)
  : result totals :=
  match os_cpu_count os with
  | None => Raise TypeError
  | Some num_cores =>
      rbind (assign_tasks num_cores (os_walk os true d path)) (fun ct =>
      let tasks := snd ct in
      let get_filtered_files :=
        get_information_about_files file_formats inversion filter_by_size s in
      if Nat.eqb num_cores 0 then Raise ValueError
      else
        let data := map get_filtered_files tasks in
        for_each data
          (fun '(total_size, files_and_size, list_of_full_file_paths) r =>
             rbind r (fun '(x, y, z) =>
             Ok (total_size + x, files_and_size ++ y,
                 list_of_full_file_paths ++ z)))
          (0, [], []))
  end.

End Scanner.

(** ** The reconciler's probe *)

Definition get_information_about_deleted_files (d : disk_state)
  (list_of_files : list string) (total_size : Z)
  : list string * list string * Z * Z :=
  fold_left
    (fun '(deleted_files, not_deleted_files, total_files, total_size) file =>
       match os_path_getsize d file with
       | Success file_size =>
           (deleted_files, not_deleted_files ++ [file],
            total_files - 1, total_size - file_size)
       | Failure _ =>
           (deleted_files ++ [file], not_deleted_files, total_files, total_size)
       end)
    list_of_files
    ([], [], Z.of_nat (length list_of_files), total_size).

(** ** The world of the interactive part *)

Inductive event :=
| Print (line : string)
| Progress (total operations : nat)
| Remove (path : string) (err : option os_error)
| Rmdir (path : string) (err : option os_error)
| Transfer (move : bool) (src dst : string) (err : option os_error)
| SaveData (data : gmap string pyval) (saved : bool)
| SaveHistory (deleted_files not_deleted_files : list string) (saved : bool).

Record world := World {
  stdin : list string;          (* the lines the user is still to type *)
  disk : disk_state;
  config_dir_ok : bool;         (* the configuration directory can be made *)
  data_json : file_state;       (* data.json *)
  data_json_writable : bool;
  history_writable : bool;      (* History of deleted files.txt *)
  today : date;                 (* date.today(), the same all through a pass *)
  trace : list event }.

Definition set_stdin (l : list string) (w : world) : world :=
  World l (disk w) (config_dir_ok w) (data_json w) (data_json_writable w)
    (history_writable w) (today w) (trace w).
Definition set_disk (d : disk_state) (w : world) : world :=
  World (stdin w) d (config_dir_ok w) (data_json w) (data_json_writable w)
    (history_writable w) (today w) (trace w).
Definition set_data_json (f : file_state) (w : world) : world :=
  World (stdin w) (disk w) (config_dir_ok w) f (data_json_writable w)
    (history_writable w) (today w) (trace w).
Definition add_trace (t : list event) (w : world) : world :=
  World (stdin w) (disk w) (config_dir_ok w) (data_json w)
    (data_json_writable w) (history_writable w) (today w) (trace w ++ t).

Definition M (A : Type) : Type := world -> result A * world.

Definition ret {A} (a : A) : M A := fun w => (Ok a, w).
Definition raise {A} (e : exn) : M A := fun w => (Raise e, w).
Definition lift {A} (r : result A) : M A := fun w => (r, w).
Definition bind {A B} (m : M A) (k : A -> M B) : M B :=
  fun w =>
    match m w with
    | (Ok a, w') => k a w'
    | (Raise e, w') => (Raise e, w')
    end.

Notation "'let*' x ':=' m 'in' k" := (bind m (fun x => k))
  (at level 10, x pattern, m at level 100, k at level 200).
Notation "m '>>' k" := (bind m (fun _ => k))
  (at level 100, k at level 200, right associativity).

Definition emit (e : event) : M unit := fun w => (Ok tt, add_trace [e] w).
Definition print (line : string) : M unit := emit (Print line).
Definition when (b : bool) (m : M unit) : M unit := if b then m else ret tt.

(** [input()]: the next line, or [EOFError] at the end of the input. *)
Definition input : M string :=
  fun w =>
    match stdin w with
    | [] => (Raise EOFError, w)
    | line :: rest => (Ok line, set_stdin rest w)
    end.

(** [while True: x = input(); if accepted: leave the loop; print(...)] *)
Fixpoint read_until {A} (accept : string -> option A) (complaint : list event)
  (lines : list string) : result A * list string * list event :=
  match lines with
  | [] => (Raise EOFError, [], [])
  | line :: rest =>
      match accept line with
      | Some a => (Ok a, rest, [])
      | None =>
          let '(r, rest', out) := read_until accept complaint rest in
          (r, rest', complaint ++ out)
      end
  end.

Definition input_until {A} (accept : string -> option A)
  (complaint : list event) : M A :=
  fun w =>
    let '(r, rest, out) := read_until accept complaint (stdin w) in
    (r, add_trace out (set_stdin rest w)).

Fixpoint for_each_M {A} (l : list A) (body : A -> M unit) : M unit :=
  match l with
  | [] => ret tt
  | x :: r => body x >> for_each_M r body
  end.

(** [x.lower().strip() == 'yes'] *)
Definition says_yes (x : string) : bool :=
  String.eqb (Py.strip (Py.lower x)) "yes".

(** ** Choosing the policy *)

Definition valid_choice (act : string) : bool :=
  Py.isdigit act && Py.in_tuple act ["1"; "2"].

Definition get_valid_choice (act : string) : M string :=
  if valid_choice act then ret act
  else input_until
         (fun line => let act := Py.strip line in
                      if valid_choice act then Some act else None) [].

Definition input_file_format : M (file_formats * bool) :=
  print (Py.nl +:+ "If you want to select all files, write "
         +:+ Py.dquote +:+ "all" +:+ Py.dquote +:+ ".") >>
  print ("If there is a specific extension, then write the extension."
         +:+ Py.nl) >>
  let* form := input_until
                 (fun line => let form := Py.strip (Py.lower line) in
                              if String.eqb form "" then None else Some form)
                 [] in
  if negb (String.eqb form "all") then
    let* form := lift (Py.split ", " form) in
    print (Py.nl +:+ "If you want to select files with the selected extension, enter "
           +:+ Py.dquote +:+ "1" +:+ Py.dquote +:+ ".") >>
    let* act := input in
    let* act := get_valid_choice (Py.strip act) in
    if String.eqb act "1" then ret (Formats form, false)
    else if String.eqb act "2" then ret (Formats form, true)
    else raise TypeError
  else ret (All, false).

(** ** The executor *)

(** [restart_script()]: asks, then either runs [main] afresh or calls
    [exit()].  [main] itself ends with [restart_script()], so control never
    comes back to the caller; the fresh run is a new pass, not part of the
    one modelled here. *)
Definition restart_script {A} : M A :=
  let* act := input in
  (if says_yes act
   then print (String.concat "" (replicate 120 "-"))
   else print "The program has completed its work.") >>
  raise SystemExit.

Definition selecting_an_option_for_files : M string :=
  print (Py.nl +:+ "The following options are available to you:") >>
  print ("1.) Copy files. " +:+ Py.nl +:+ "2.) Move files. " +:+ Py.nl
         +:+ "3.) Delete files.") >>
  input_until
    (fun act => if Py.in_tuple (Py.strip act) ["1"; "2"; "3"]
                then Some act else None)
    [Print "Please select a number from 1 to 3."].

(** A system call of the executor, with its outcome recorded. *)
Definition remove_call (file : string) : M (option os_error) :=
  fun w =>
    match os_remove (disk w) file with
    | Success d' => (Ok None, add_trace [Remove file None] (set_disk d' w))
    | Failure e => (Ok (Some e), add_trace [Remove file (Some e)] w)
    end.

Definition rmdir_call (subdirectory : string) : M (option os_error) :=
  fun w =>
    match os_rmdir (disk w) subdirectory with
    | Success d' => (Ok None, add_trace [Rmdir subdirectory None] (set_disk d' w))
    | Failure e => (Ok (Some e), add_trace [Rmdir subdirectory (Some e)] w)
    end.

Definition transfer_call (os : platform) (move : bool) (src dst : string)
  : M (option os_error) :=
  fun w =>
    match shutil_transfer os move src dst (disk w) with
    | Success d' => (Ok None, add_trace [Transfer move src dst None] (set_disk d' w))
    | Failure e => (Ok (Some e), add_trace [Transfer move src dst (Some e)] w)
    end.

(** [f'File "{file.split(s)[-1]}" ...'] *)
Definition file_message (s file tail : string) : M unit :=
  let* pieces := lift (Py.split s file) in
  print ("File " +:+ Py.dquote +:+ Py.last_piece pieces +:+ Py.dquote +:+ tail).

Section Executor.

Variable os : platform.

(** The first loop of [deleting_files_and_directories]; returns [success]. *)
Fixpoint delete_loop (output_files indicator_output : bool) (s : string)
  (total : nat) (list_of_files : list string) (operations : nat)
  (success : bool) : M bool :=
  match list_of_files with
  | [] => ret success
  | file :: rest =>
      let shown := negb output_files && indicator_output in
      let operations := if shown then S operations else operations in
      when shown (emit (Progress total operations)) >>
      let* r := remove_call file in
      match r with
      | None =>
          delete_loop output_files indicator_output s total rest operations success
      | Some FileNotFoundError =>
          when output_files (file_message s file " not found.") >>
          delete_loop output_files indicator_output s total rest operations false
      | Some PermissionError =>
          when output_files (file_message s file " could not be deleted.") >>
          delete_loop output_files indicator_output s total rest operations false
      | Some e => raise (OSError e)
      end
  end.

(** The second loop: empty sub-directories are removed bottom-up; every
    [OSError] of [os.rmdir] is passed over. *)
Definition cleanup_sweep (paths : list string) : M unit :=
  for_each_M paths (fun path =>
    fun w =>
      for_each_M (os_walk os false (disk w) path)
        (fun '(root, dirnames, _) =>
           for_each_M dirnames (fun nested_dir =>
             let subdirectory := os_path_join os root nested_dir in
             let* _ := rmdir_call subdirectory in
             ret tt)) w).

Definition deleting_files_and_directories (list_of_files paths : list string)
  (output_files indicator_output : bool) (s : string) : M unit :=
  let total := length list_of_files in
  let* success :=
    delete_loop output_files indicator_output s total list_of_files O true in
  cleanup_sweep paths >>
  if success then print (Py.nl +:+ "- Files successfully cleared.")
  else print (Py.nl +:+ "- Not all files were successfully cleared.").

(** The loop of [copy_or_move_files]; returns [success]. *)
Fixpoint transfer_loop (number dst : string) (output_files indicator_output : bool)
  (s done_word : string) (total : nat) (list_of_files : list string)
  (operations : nat) (success : bool) : M bool :=
  match list_of_files with
  | [] => ret success
  | src :: rest =>
      let shown := negb output_files && indicator_output in
      let operations := if shown then S operations else operations in
      when shown (emit (Progress total operations)) >>
      let* r :=
        (if String.eqb number "1" then transfer_call os false src dst
         else if String.eqb number "2" then transfer_call os true src dst
         else ret None) in
      match r with
      | None =>
          transfer_loop number dst output_files indicator_output s done_word
            total rest operations success
      | Some _ =>
          when output_files
            (file_message s src (" could not be " +:+ done_word +:+ ".")) >>
          transfer_loop number dst output_files indicator_output s done_word
            total rest operations false
      end
  end.

Definition copy_or_move_files (list_of_files paths : list string)
  (number : string) (output_files indicator_output : bool) (s : string)
  : M unit :=
  let word := if String.eqb number "1" then ("copy", "copied")
              else ("move", "moved") in
  let folder_numbers := map (fun el : nat => pretty el) (seq 1 (length paths)) in
  let total := length list_of_files in
  print (Py.nl +:+ "The following directories are available to you:") >>
  for_each_M (imap (fun i path => (S i, path)) paths)
    (fun '(i, path) => print (pretty i +:+ ".) " +:+ path)) >>
  let* choice :=
    input_until
      (fun choice => if Py.in_tuple (Py.strip choice) folder_numbers
                     then Some choice else None)
      [Print ("Please select a number from 1 to "
              +:+ pretty (length paths) +:+ ".")] in
  let* index := lift (Py.int choice) in
  let* dst := lift (Py.getitem paths (index - 1)) in
  print ("You have selected the following directory: " +:+ Py.nl +:+ dst) >>
  let* choice := input in
  if negb (says_yes choice) then print "The action was cancelled."
  else
    (fun w =>
       match os_listdir (disk w) dst with
       | Success _ => ret tt w
       | Failure _ =>
           (print "The selected directory no longer exists." >>
            print ("Failed to " +:+ fst word +:+ " files.") >>
            restart_script) w
       end) >>
    let* success :=
      transfer_loop number dst output_files indicator_output s (snd word)
        total list_of_files O true in
    if success
    then print (Py.nl +:+ "- The files were successfully " +:+ snd word
                +:+ " to another directory.")
    else print (Py.nl +:+ "- Not all files were successfully " +:+ snd word
                +:+ " to another directory.").

(** [execute_the_selected_option]; the result is [None] or [True]. *)
Definition execute_the_selected_option
  (list_of_files list_of_selected_paths paths : list string)
  (output_files indicator_output : bool) (s : string) : M pyval :=
  let words := ["copy"; "move"; "delete"] in
  let* number :=
    (if negb (Nat.eqb (length paths) 1) then
       let* number := selecting_an_option_for_files in
       let* index := lift (Py.int number) in
       let* word := lift (Py.getitem words (index - 1)) in
       print ("You have chosen to " +:+ word +:+ " files.") >>
       ret (Some number)
     else ret None) in
  let* act :=
    (if Nat.eqb (length paths) 1 || bool_decide (number = Some "3") then
       let* act := input in
       if says_yes act then
         print "Are you sure you want to clear the selected directories?" >>
         let* act := input in
         ret (Some (Py.strip (Py.lower act)))
       else ret (Some act)
     else ret None) in
  match act with
  | Some a =>
      if String.eqb a "yes" then
        deleting_files_and_directories list_of_files list_of_selected_paths
          output_files indicator_output s >>
        ret (VBool true)
      else print "Files are not cleared." >> ret VNone
  | None =>
      match number with
      | Some n =>
          if Py.in_tuple n ["1"; "2"] then
            copy_or_move_files list_of_files paths n output_files
              indicator_output s >>
            ret VNone
          else ret VNone
      | None => ret VNone
      end
  end.

End Executor.

(** ** The reconciler *)

(** [get_config_path]: the path stands for itself; when the configuration
    directory cannot be made the program calls [exit()]. *)
Definition get_config_path (file_name : string) : M string :=
  fun w => if config_dir_ok w then (Ok file_name, w) else (Raise SystemExit, w).

Definition saving_data (data : gmap string pyval) : M bool :=
  fun w =>
    if data_json_writable w
    then (Ok true,
          add_trace [SaveData data true]
            (set_data_json (Content (Some (VDict data))) w))
    else (Ok false,
          add_trace [SaveData data false;
                     Print (Py.nl +:+ "Error! Failed to save statistics data!");
                     Print "Check file and directory permissions."] w).

(** [d[k] += n] on a counter. *)
Definition add_to (k : string) (n : Z) (data : gmap string pyval)
  : gmap string pyval :=
  <[k := VInt (int_value (item data k) + n)]> data.

(** The record of [save_and_display_cleanup_info] once the counters are
    raised, from the record that passed [check_data]. *)
Definition counted_data (today : date) (total_files total_size : Z)
  (data : gmap string pyval) : gmap string pyval :=
  let data :=
    if eq_str (item data "date_of_first_deletion") "0001-01-01"
    then <["date_of_last_deletion" := VStr (date_str today)]>
           (<["date_of_first_deletion" := VStr (date_str today)]> data)
    else data in
  let data := add_to "number_of_deletions" 1 data in
  let data := add_to "number_of_deleted_files" total_files data in
  add_to "total_weight_of_deleted_files" total_size data.

(** The dates are taken apart again for display, whether or not the
    statistics are shown. *)
Definition dates_for_display (data : gmap string pyval) : result unit :=
  match item data "date_of_first_deletion", item data "date_of_last_deletion" with
  | VStr first_date, VStr last_date =>
      rbind (year_month_day first_date) (fun _ =>
      rbind (year_month_day last_date) (fun '(y, m, d) =>
      rbind (date_new y m d) (fun _ => Ok tt)))
  | _, _ => Raise TypeError
  end.

(** The record handed to [saving_data]. *)
Definition updated_data (today : date) (total_files total_size : Z)
  (data : gmap string pyval) : gmap string pyval :=
  <["date_of_last_deletion" := VStr (date_str today)]>
    (counted_data today total_files total_size data).

Definition save_and_display_cleanup_info (total_files total_size : Z)
  (display_stats : bool) : M bool :=
  let* data_path := get_config_path "data.json" in
  fun w =>
    (let* loaded := lift (get_json_content (data_json w) default_data) in
     let data := check_data (today w) (fst loaded) (snd loaded) in
     let* _ := lift (dates_for_display
                       (counted_data (today w) total_files total_size data)) in
     saving_data (updated_data (today w) total_files total_size data)) w.

Definition saving_history_of_deleted_files
  (deleted_files not_deleted_files : list string) (s : string) : M unit :=
  let* history_of_deleted_files := get_config_path "History of deleted files.txt" in
  let* act := input in
  if says_yes act then
    fun w =>
      if history_writable w then
        (for_each_M (deleted_files ++ not_deleted_files)
           (fun element => let* _ := lift (Py.split s element) in ret tt) >>
         emit (SaveHistory deleted_files not_deleted_files true) >>
         print (Py.nl +:+ "The history of deleted files has been successfully saved to the following path:") >>
         print history_of_deleted_files) w
      else
        (emit (SaveHistory deleted_files not_deleted_files false) >>
         print ("Error! Failed to save history of deleted files." +:+ Py.nl) >>
         print "Check file and directory permissions.") w
  else print "The history of deleted files was not saved.".

Definition post_cleanup_actions (boolean : pyval) (list_of_files : list string)
  (total_size : Z) (display_stats : bool) (s : string) : M unit :=
  if truthy boolean then
    fun w =>
      let '(deleted_files, not_deleted_files, total_files, total_size) :=
        get_information_about_deleted_files (disk w) list_of_files total_size in
      (let* should_save_history :=
         save_and_display_cleanup_info total_files total_size display_stats in
       when should_save_history
         (saving_history_of_deleted_files deleted_files not_deleted_files s)) w
  else ret tt.

(** The two statements that end each branch of [main]. *)
Definition execute_and_reconcile (os : platform)
  (list_of_files list_of_selected_paths paths : list string)
  (output_files indicator_output display_stats : bool) (total_size : Z)
  (s : string) : M unit :=
  let* boolean :=
    execute_the_selected_option os list_of_files list_of_selected_paths paths
      output_files indicator_output s in
  post_cleanup_actions boolean list_of_files total_size display_stats s.

(** ** Definitions that follow the wording of the specification *)


Fixpoint string_existsb (p : ascii -> bool) (s : string) : bool :=
  match s with
  | EmptyString => false
  | String c r => p c || string_existsb p r
  end.




(** What the scanner keeps of one directory entry: nothing, or the file's
    name, size and full path. *)
Definition kept (os : platform) (d : disk_state) (file_formats : file_formats)
  (inversion : bool) (filter_by_size : size_filter) (s : string)
  (directory file : string) : list (string * Z * string) :=
  let full := os_path_join os directory file in
  if get_file_by_format full file_formats inversion && os_path_exists d full then
    match os_path_getsize d full with
    | Success size =>
        if size_test filter_by_size size
        then [(Py.last_piece (Py.split_go s 0 "" full), size, full)]
        else []
    | Failure _ => []
    end
  else [].

Definition kept_of_units (os : platform) (d : disk_state)
  (file_formats : file_formats) (inversion : bool)
  (filter_by_size : size_filter) (s : string)
  (units : list (string * list string)) : list (string * Z * string) :=
  flat_map (fun u => flat_map (kept os d file_formats inversion filter_by_size s (fst u))
                       (snd u)) units.

Definition sum_sizes (l : list (string * Z * string)) : Z :=
  fold_right (fun x acc => snd (fst x) + acc) 0 l.

(** The totals with the kept files [l] added at the end. *)
Definition add_kept (st : totals) (l : list (string * Z * string)) : totals :=
  (fst (fst st) + sum_sizes l, snd (fst st) ++ map fst l, snd st ++ map snd l).

(** The (directory, file names) part of a walk. *)
Definition units_of (walk : list (string * list string * list string))
  : list (string * list string) :=
  map (fun x => (fst (fst x), snd x)) walk.

(** The (directory, file) pairs of a list of work units. *)
Definition entries (units : list (string * list string)) : list (string * string) :=
  flat_map (fun u => map (pair (fst u)) (snd u)) units.

(** The items of [l] whose position, counted from [c], is [i] modulo [W]. *)
Fixpoint bucket {A} (W i c : nat) (l : list A) : list A :=
  match l with
  | [] => []
  | x :: r =>
      (if Nat.eqb (c mod W) i then [x] else []) ++ bucket W i (S c) r
  end.

(** ** A small tree for the examples *)

Definition posix_join (a b : string) : string := a +:+ "/" +:+ b.

(** [/r] holds [a.txt] (10 bytes), [b.log] (20 bytes, which may not be
    unlinked) and the directory [sub] with [c.txt] (5 bytes). *)
Definition demo_disk : disk_state :=
  list_to_map
    [("/r", Inode Directory "/" 4096 None);
     ("/r/a.txt", Inode File "/r" 10 None);
     ("/r/b.log", Inode File "/r" 20 (Some PermissionError));
     ("/r/sub", Inode Directory "/r" 4096 None);
     ("/r/sub/c.txt", Inode File "/r/sub" 5 None)].

Definition demo_os : platform :=
  Platform
    (fun topdown _ _ =>
       if topdown
       then [("/r", ["sub"], ["a.txt"; "b.log"]); ("/r/sub", [], ["c.txt"])]
       else [("/r/sub", [], ["c.txt"]); ("/r", ["sub"], ["a.txt"; "b.log"])])
    posix_join (Some 2%nat) (fun _ _ _ d => Success d).

Definition demo_files : list string := ["/r/a.txt"; "/r/b.log"; "/r/sub/c.txt"].

(** The probe of the reconciler succeeds on [file]. *)
Definition still_present (d : disk_state) (file : string) : bool :=
  match os_path_getsize d file with
  | Success _ => true
  | Failure _ => false
  end.

(** The sizes recorded by the scan, summed. *)
Definition scanned_size (scanned : list (string * Z)) : Z :=
  fold_right (fun x acc => snd x + acc) 0 scanned.







(** The value of a counter of the history record. *)
Definition counter (data : gmap string pyval) (k : string) : Z :=
  int_value (item data k).




Definition demo_day : date := Date 2024 5 1.

Definition demo_world (lines : list string) (d : disk_state) (history : file_state)
  : world :=
  World lines d true history true true demo_day [].

(** ** Observations on a trace *)

Definition cleared_line : string := Py.nl +:+ "- Files successfully cleared.".
Definition not_cleared_line : string :=
  Py.nl +:+ "- Not all files were successfully cleared.".

(** The line that ends a delete pass. *)
Definition is_delete_summary (e : event) : bool :=
  match e with
  | Print line => String.eqb line cleared_line || String.eqb line not_cleared_line
  | _ => false
  end.

(** The reconciler hands a record to [saving_data]. *)
Definition is_save_data (e : event) : bool :=
  match e with SaveData _ _ => true | _ => false end.

Definition is_transfer (e : event) : bool :=
  match e with Transfer _ _ _ _ => true | _ => false end.

(** What reaches the console. *)
Definition is_console (e : event) : bool :=
  match e with Print _ | Progress _ _ => true | _ => false end.

Definition is_print (e : event) : bool :=
  match e with Print _ => true | _ => false end.

(** The attempts of [os.remove] in a trace, with their outcomes. *)
Definition removals (t : list event) : list (string * option os_error) :=
  flat_map (fun e => match e with Remove p r => [(p, r)] | _ => [] end) t.

Definition removed (r : string * option os_error) : bool :=
  match snd r with None => true | Some _ => false end.

(** The parts of the world that the executor leaves alone. *)
Definition config_of (w : world) : bool * file_state * bool * bool * date :=
  (config_dir_ok w, data_json w, data_json_writable w, history_writable w,
   today w).

(** "Cannot be accessed": an attempt to remove the file either succeeds or
    fails as not found or permission denied. *)
Definition removable_or_denied (d : disk_state) (file : string) : Prop :=
  match d !! file with
  | None => True
  | Some n =>
      i_kind n = File
      /\ (i_guard n = None \/ i_guard n = Some PermissionError
          \/ i_guard n = Some FileNotFoundError)
  end.

(** [q] lies in directory [a] of disk [d], directly or through a chain of
    sub-directories. *)
Inductive inside (d : disk_state) : string -> string -> Prop :=
| inside_entry q nq :
    d !! q = Some nq -> inside d q (i_parent nq)
| inside_deeper q p np :
    inside d q p -> d !! p = Some np -> i_kind np = Directory ->
    inside d q (i_parent np).

(** From disk [d] to disk [d']: entries only disappear, and a directory
    that disappeared has no entry left in it. *)
Definition shrinks (d d' : disk_state) : Prop :=
  (forall p n, d' !! p = Some n -> d !! p = Some n)
  /\ (forall p n, d !! p = Some n -> i_kind n = Directory -> d' !! p = None ->
        forall q nq, d' !! q = Some nq -> i_parent nq <> p).

(** A computation changes the world only by reading input and adding
    events that satisfy [P] to the trace. *)
Definition emits {A} (P : event -> Prop) (m : M A) : Prop :=
  forall w r w',
    m w = (r, w') ->
    config_of w' = config_of w
    /\ exists t, trace w' = trace w ++ t /\ Forall P t.

(** An event of a delete pass before its summary: no summary line, nothing
    of the reconciler, no transfer. *)
Definition quiet (e : event) : Prop :=
  is_delete_summary e = false /\ is_save_data e = false
  /\ is_transfer e = false.

(** What a round of the clean-up sweep does to the world. *)
Definition swept (w w' : world) : Prop :=
  config_of w' = config_of w
  /\ shrinks (disk w) (disk w')
  /\ exists t, trace w' = trace w ++ t /\ Forall quiet t /\ removals t = []
               /\ List.filter is_print t = [].

(** The demo tree with [a.txt] protected as well. *)
Definition demo_locked_disk : disk_state :=
  <["/r/a.txt" := Inode File "/r" 10 (Some PermissionError)]> demo_disk.

(** The demo tree on a medium that refuses the removal of [a.txt] with an
    error that is neither "not found" nor "permission denied". *)
Definition demo_readonly_disk : disk_state :=
  <["/r/a.txt" := Inode File "/r" 10 (Some OtherOSError)]> demo_disk.


(** Every normal result of a computation satisfies [Q]. *)
Definition returns {A} (Q : A -> Prop) (m : M A) : Prop :=
  forall w a w', m w = (Ok a, w') -> Q a.

(** An event that is neither the summary of a delete pass nor a transfer. *)
Definition settled (e : event) : Prop :=
  is_delete_summary e = false /\ is_transfer e = false.

(** A computation adds to the trace only events that satisfy [P]. *)
Definition traces {A} (P : event -> Prop) (m : M A) : Prop :=
  forall w r w',
    m w = (r, w') -> exists t, trace w' = trace w ++ t /\ Forall P t.

(* ================================================================== *)
(** * Properties *)
(* ================================================================== *)

(** ** Strings *)

Lemma isupper_lower_char c : Py.isupper (Py.lower_char c) = false.
Proof.
  destruct c as [[] [] [] [] [] [] [] []]; reflexivity.
Qed.

Lemma lower_no_upper s : string_existsb Py.isupper (Py.lower s) = false.
Proof.
  induction s as [|c r IH]; simpl; [reflexivity|].
  now rewrite isupper_lower_char, IH.
Qed.

Lemma lstrip_no_upper s :
  string_existsb Py.isupper s = false ->
  string_existsb Py.isupper (Py.lstrip s) = false.
Proof.
  induction s as [|c r IH]; simpl; [easy|].
  intros H. apply orb_false_iff in H as [Hc Hr].
  destruct (Py.isspace c); [auto|]. simpl. now rewrite Hc, Hr.
Qed.

Lemma rstrip_no_upper s :
  string_existsb Py.isupper s = false ->
  string_existsb Py.isupper (Py.rstrip s) = false.
Proof.
  induction s as [|c r IH]; simpl; [easy|].
  intros H. apply orb_false_iff in H as [Hc Hr].
  specialize (IH Hr).
  destruct (Py.rstrip r) as [|c' r'].
  - destruct (Py.isspace c); simpl; [reflexivity|]. now rewrite Hc.
  - simpl in *. now rewrite Hc, IH.
Qed.

Lemma strip_lower_no_upper s :
  string_existsb Py.isupper (Py.strip (Py.lower s)) = false.
Proof.
  unfold Py.strip. apply rstrip_no_upper, lstrip_no_upper, lower_no_upper.
Qed.

Lemma rev_string_no_upper s acc :
  string_existsb Py.isupper s = false ->
  string_existsb Py.isupper acc = false ->
  string_existsb Py.isupper (Py.rev_string acc s) = false.
Proof.
  revert acc. induction s as [|c r IH]; simpl; intros acc Hs Hacc; [easy|].
  apply orb_false_iff in Hs as [Hc Hr].
  apply IH; [easy|]. simpl. now rewrite Hc, Hacc.
Qed.

(** Every piece of a split is made of characters of the string. *)
Lemma split_go_no_upper sep s : forall skip acc,
  string_existsb Py.isupper s = false ->
  string_existsb Py.isupper acc = false ->
  Forall (fun piece => string_existsb Py.isupper piece = false)
         (Py.split_go sep skip acc s).
Proof.
  induction s as [|c r IH]; cbn [Py.split_go string_existsb];
    intros skip acc Hs Hacc.
  - constructor; [|constructor]. now apply rev_string_no_upper.
  - apply orb_false_iff in Hs as [Hc Hr].
    destruct skip as [|k]; [|now apply IH].
    destruct (String.prefix sep (String c r)).
    + constructor; [now apply rev_string_no_upper|]. now apply IH.
    + apply IH; [easy|]. simpl. now rewrite Hc, Hacc.
Qed.

Lemma in_tuple_true x t :
  Py.in_tuple x t = true -> In x t.
Proof.
  unfold Py.in_tuple. intros H. apply existsb_exists in H as (y & Hy & E).
  apply String.eqb_eq in E. now subst.
Qed.

(** ** The extension pattern *)













Lemma search_empty : search "" = None.
Proof. reflexivity. Qed.


(** ** C2 and C10: files without a listed extension *)

Lemma read_until_accepted {A} (accept : string -> option A) complaint lines :
  forall a rest out,
  read_until accept complaint lines = (Ok a, rest, out) ->
  exists line, In line lines /\ accept line = Some a.
Proof.
  induction lines as [|line more IH]; intros a rest out H; [discriminate|].
  cbn [read_until] in H. destruct (accept line) as [a'|] eqn:E.
  - injection H as <- <- <-. exists line. split; [now left|assumption].
  - destruct (read_until accept complaint more) as [[r rest'] out'] eqn:Hr.
    injection H as -> <- <-.
    destruct (IH _ _ _ eq_refl) as (l & Hin & Hl).
    exists l. split; [now right|assumption].
Qed.

(** The tuple that [input_file_format] returns is the split of a line that
    went through [lower] and [strip]. *)
Lemma input_file_format_tuple w t inv w' :
  input_file_format w = (Ok (Formats t, inv), w') ->
  exists line, t = Py.split_go ", " 0 "" (Py.strip (Py.lower line)).
Proof.
  unfold input_file_format, bind, print, emit, input_until, lift, ret, raise.
  destruct (read_until _ _ _) as [[r rest] out] eqn:Hr.
  destruct r as [form|e]; [|discriminate].
  apply read_until_accepted in Hr as (line & _ & Hl).
  destruct (String.eqb (Py.strip (Py.lower line)) "") eqn:E; [discriminate|].
  injection Hl as <-.
  destruct (negb _); [|discriminate].
  cbn [Py.split]. cbn beta iota.
  destruct (input _) as [[act|e] w1]; [|discriminate].
  unfold get_valid_choice.
  destruct (valid_choice (Py.strip act)).
  - unfold ret. destruct (String.eqb _ "1"); [intros [= <- _ _]; eauto|].
    destruct (String.eqb _ "2"); [intros [= <- _ _]; eauto|discriminate].
  - unfold input_until. destruct (read_until _ _ _) as [[[a|e] rest'] out'];
      [|discriminate].
    destruct (String.eqb a "1"); [intros [= <- _ _]; eauto|].
    destruct (String.eqb a "2"); [intros [= <- _ _]; eauto|discriminate].
Qed.

Lemma input_file_format_lowercase w t inv w' :
  input_file_format w = (Ok (Formats t, inv), w') ->
  Forall (fun e => string_existsb Py.isupper e = false) t.
Proof.
  intros H. apply input_file_format_tuple in H as [line ->].
  apply split_go_no_upper; [apply strip_lower_no_upper|reflexivity].
Qed.

Example search_txt : search "/tmp/a.txt" = Some "txt".
Proof. reflexivity. Qed.

Example search_last_dot : search "/tmp/a.tar.gz" = Some "gz".
Proof. reflexivity. Qed.

Example search_no_dot : search "/tmp/Makefile" = None.
Proof. reflexivity. Qed.

Example search_dot_in_directory : search "/tmp/a.d/file" = None.
Proof. reflexivity. Qed.

Example search_eleven : search "a.abcdefghijk" = None.
Proof. reflexivity. Qed.

(** [$] also matches before a final newline: eleven characters after the
    dot, the last one a newline, still give an extension of ten. *)
Example search_before_final_newline :
  search ("a.abcdefghij" +:+ Py.nl) = Some "abcdefghij".
Proof. reflexivity. Qed.




(** C10: the tuple entered by the user holds no upper-case letter, so a file
    whose extension has one is never listed: it is excluded with inversion
    off and passes with inversion on. *)
Theorem uppercase_extension_not_matched w t inv w' file ext :
  input_file_format w = (Ok (Formats t, inv), w') ->
  search file = Some ext ->
  string_existsb Py.isupper ext = true ->
  Forall (fun e => string_existsb Py.isupper e = false) t
  /\ get_file_by_format file (Formats t) false = false
  /\ get_file_by_format file (Formats t) true = true.
Proof.
  intros Hin Hs Hup.
  pose proof (input_file_format_lowercase _ _ _ _ Hin) as Hlow.
  assert (Hno : Py.in_tuple ext t = false).
  { destruct (Py.in_tuple ext t) eqn:E; [|reflexivity].
    apply in_tuple_true in E. rewrite Forall_forall in Hlow.
    apply list_elem_of_In in E.
    specialize (Hlow _ E). congruence. }
  unfold get_file_by_format. rewrite Hs, Hno. auto.
Qed.

Lemma uppercase_extension_not_matched_witness :
  get_file_by_format "/tmp/a.TXT" (Formats ["txt"]) false = false
  /\ get_file_by_format "/tmp/a.TXT" (Formats ["txt"]) true = true.
Proof.
  apply (uppercase_extension_not_matched
           (World ["TXT"; "2"] ∅ true Absent true true (Date 2024 5 1) [])
           ["txt"] true
           (World [] ∅ true Absent true true (Date 2024 5 1)
              [Print (Py.nl +:+ "If you want to select all files, write "
                      +:+ Py.dquote +:+ "all" +:+ Py.dquote +:+ ".");
               Print ("If there is a specific extension, then write the extension."
                      +:+ Py.nl);
               Print (Py.nl +:+ "If you want to select files with the selected extension, enter "
                      +:+ Py.dquote +:+ "1" +:+ Py.dquote +:+ ".")])
           "/tmp/a.TXT" "TXT"); reflexivity.
Defined.

(** ** The scanner *)

Lemma for_each_raise {A S} (l : list A) (body : S -> A -> result S) e :
  fold_left (fun acc x => rbind acc (fun st => body st x)) l (Raise e) = Raise e.
Proof. induction l as [|x l IH]; simpl; auto. Qed.

Lemma for_each_cons {A S} x (l : list A) (body : S -> A -> result S) init :
  for_each (x :: l) body init = rbind (body init x) (for_each l body).
Proof.
  unfold for_each. simpl. destruct (body init x) as [st|e]; simpl; [reflexivity|].
  apply for_each_raise.
Qed.

Lemma for_each_nil {A S} (body : S -> A -> result S) init :
  for_each [] body init = Ok init.
Proof. reflexivity. Qed.

(** A loop whose body adds to the state what a function [f] gives for each
    item. *)
Lemma for_each_additive {A S B} (add : S -> list B -> S) (f : A -> list B)
  (body : S -> A -> result S) :
  (forall st, add st [] = st) ->
  (forall st l1 l2, add (add st l1) l2 = add st (l1 ++ l2)) ->
  (forall st x, body st x = Ok (add st (f x))) ->
  forall l st, for_each l body st = Ok (add st (flat_map f l)).
Proof.
  intros Hnil Happ Hbody. induction l as [|x l IH]; intros st.
  - simpl. now rewrite Hnil.
  - rewrite for_each_cons, Hbody. simpl. now rewrite IH, Happ.
Qed.

Lemma sum_sizes_app l1 l2 : sum_sizes (l1 ++ l2) = sum_sizes l1 + sum_sizes l2.
Proof. induction l1 as [|x l1 IH]; simpl; [reflexivity|]. rewrite IH. lia. Qed.

Lemma add_kept_nil st : add_kept st [] = st.
Proof.
  destruct st as [[t n] p]. unfold add_kept. simpl.
  now rewrite Z.add_0_r, !app_nil_r.
Qed.

Lemma add_kept_app st l1 l2 :
  add_kept (add_kept st l1) l2 = add_kept st (l1 ++ l2).
Proof.
  destruct st as [[t n] p]. unfold add_kept. simpl.
  rewrite sum_sizes_app, !map_app, !app_assoc, Z.add_assoc. reflexivity.
Qed.

Lemma split_nonempty s p :
  s <> "" -> Py.split s p = Ok (Py.split_go s 0 "" p).
Proof. destruct s; [congruence|reflexivity]. Qed.

Section ScannerFacts.

Variable os : platform.
Variable d : disk_state.
Variables (fmts : file_formats) (inversion : bool) (fbs : size_filter).
Variable s : string.
Hypothesis s_nonempty : s <> "".

(** The body of the inner loop, which both scanners share. *)
Lemma scan_file_step directory (st : totals) file :
  (let '(total_size, files_and_size, list_of_full_file_paths) := st in
   let full_file_path := os_path_join os directory file in
   let format_verification := get_file_by_format full_file_path fmts inversion in
   if format_verification && os_path_exists d full_file_path then
     rbind (Py.split s full_file_path) (fun pieces =>
     let file_name := Py.last_piece pieces in
     rbind (lift_os (os_path_getsize d full_file_path)) (fun file_size =>
     if size_test fbs file_size then
       Ok (total_size + file_size,
           files_and_size ++ [(file_name, file_size)],
           list_of_full_file_paths ++ [full_file_path])
     else Ok (total_size, files_and_size, list_of_full_file_paths)))
   else Ok (total_size, files_and_size, list_of_full_file_paths))
  = Ok (add_kept st (kept os d fmts inversion fbs s directory file)).
Proof.
  destruct st as [[t n] p]. unfold kept. cbv zeta.
  destruct (get_file_by_format _ _ _ && os_path_exists d _) eqn:E.
  - rewrite split_nonempty by assumption. cbn [rbind].
    unfold os_path_exists in E. apply andb_true_iff in E as [_ E].
    apply bool_decide_eq_true in E as [n0 E].
    unfold os_path_getsize. rewrite E. cbn [lift_os rbind].
    destruct (size_test fbs (i_size n0)).
    + unfold add_kept. simpl. do 3 f_equal. lia.
    + now rewrite add_kept_nil.
  - now rewrite add_kept_nil.
Qed.

Lemma scan_directory directory files st :
  for_each files
    (fun '(total_size, files_and_size, list_of_full_file_paths) file =>
       let full_file_path := os_path_join os directory file in
       let format_verification := get_file_by_format full_file_path fmts inversion in
       if format_verification && os_path_exists d full_file_path then
         rbind (Py.split s full_file_path) (fun pieces =>
         let file_name := Py.last_piece pieces in
         rbind (lift_os (os_path_getsize d full_file_path)) (fun file_size =>
         if size_test fbs file_size then
           Ok (total_size + file_size,
               files_and_size ++ [(file_name, file_size)],
               list_of_full_file_paths ++ [full_file_path])
         else Ok (total_size, files_and_size, list_of_full_file_paths)))
       else Ok (total_size, files_and_size, list_of_full_file_paths))
    st
  = Ok (add_kept st (flat_map (kept os d fmts inversion fbs s directory) files)).
Proof.
  apply (for_each_additive add_kept).
  - apply add_kept_nil.
  - apply add_kept_app.
  - intros [[t n] p] file. exact (scan_file_step directory (t, n, p) file).
Qed.

Lemma get_information_about_files_kept units :
  get_information_about_files os d fmts inversion fbs s units
  = Ok (add_kept (0, [], []) (kept_of_units os d fmts inversion fbs s units)).
Proof.
  unfold get_information_about_files, kept_of_units.
  apply (for_each_additive add_kept).
  - apply add_kept_nil.
  - apply add_kept_app.
  - intros st u. apply scan_directory.
Qed.

Lemma get_all_files_windows_kept path :
  get_all_files_windows os d path fmts inversion fbs s
  = Ok (add_kept (0, [], [])
          (kept_of_units os d fmts inversion fbs s
             (units_of (os_walk os true d path)))).
Proof.
  unfold get_all_files_windows, kept_of_units, units_of.
  rewrite flat_map_concat_map, map_map, <- flat_map_concat_map.
  apply (for_each_additive add_kept
           (fun x : string * list string * list string =>
              flat_map (kept os d fmts inversion fbs s (fst (fst x))) (snd x))).
  - apply add_kept_nil.
  - apply add_kept_app.
  - intros st [[root dirs] files]. apply scan_directory.
Qed.

End ScannerFacts.

(** ** C5: the round-robin partition *)

Lemma concat_alter_snoc {A} (x : A) : forall (tasks : list (list A)) i,
  (i < length tasks)%nat ->
  concat (alter (fun t => t ++ [x]) i tasks) ≡ₚ concat tasks ++ [x].
Proof.
  induction tasks as [|t tasks IH]; intros i Hi; simpl in Hi; [lia|].
  destruct i as [|i]; simpl.
  - rewrite <- !app_assoc. apply Permutation_app_head, Permutation_app_comm.
  - change (list_alter ?f i tasks) with (alter f i tasks).
    rewrite IH by lia. now rewrite app_assoc.
Qed.

Section Partition.

Variable W : nat.
Hypothesis W_pos : (0 < W)%nat.

Let deal : nat * list (list (string * list string))
           -> string * list string * list string
           -> result (nat * list (list (string * list string))) :=
  fun '(counter, tasks) '(root, _, files) =>
  if Nat.eqb W 0 then Raise ZeroDivisionError
  else
    let task_number := (counter mod W)%nat in
    Ok (S counter, alter (fun t => t ++ [(root, files)]) task_number tasks).

Lemma deal_step c tasks x :
  deal (c, tasks) x
  = Ok (S c, alter (fun t => t ++ [(fst (fst x), snd x)]) (c mod W)%nat tasks).
Proof.
  destruct x as [[root dirs] files]. unfold deal.
  destruct (Nat.eqb_spec W 0) as [E|_]; [lia|reflexivity].
Qed.

(** The state of the loop after any part of the walk: every task list has
    received exactly the units whose position is its number modulo [W]. *)
Lemma deal_buckets walk : forall c tasks,
  length tasks = W ->
  for_each walk deal (c, tasks)
  = Ok ((c + length walk)%nat,
        imap (fun i t => t ++ bucket W i c (units_of walk)) tasks).
Proof.
  induction walk as [|x walk IH]; intros c tasks Hlen.
  - rewrite for_each_nil. f_equal. f_equal; [simpl; lia|].
    apply list_eq. intros i. rewrite list_lookup_imap.
    destruct (tasks !! i); simpl; [now rewrite app_nil_r|reflexivity].
  - rewrite for_each_cons, deal_step. cbn [rbind].
    rewrite IH by now rewrite length_alter.
    f_equal. f_equal; [simpl; lia|].
    apply list_eq. intros i. rewrite !list_lookup_imap.
    cbn [units_of map bucket].
    destruct (Nat.eqb_spec (c mod W) i) as [<-|Hne].
    + rewrite list_lookup_alter_eq.
      destruct (tasks !! (c mod W)%nat); simpl; [|reflexivity].
      now rewrite <- app_assoc.
    + rewrite list_lookup_alter_ne by assumption.
      destruct (tasks !! i); reflexivity.
Qed.

Lemma deal_permutation walk : forall c tasks c' tasks',
  length tasks = W ->
  for_each walk deal (c, tasks) = Ok (c', tasks') ->
  concat tasks' ≡ₚ concat tasks ++ units_of walk.
Proof.
  induction walk as [|x walk IH]; intros c tasks c' tasks' Hlen H.
  - rewrite for_each_nil in H. injection H as <- <-. simpl. now rewrite app_nil_r.
  - rewrite for_each_cons, deal_step in H. cbn [rbind] in H.
    apply IH in H; [|now rewrite length_alter].
    rewrite H, concat_alter_snoc.
    + cbn [units_of map]. now rewrite <- app_assoc.
    + rewrite Hlen. now apply Nat.mod_upper_bound, Nat.neq_0_lt_0.
Qed.

Lemma assign_tasks_unfold walk :
  assign_tasks W walk = for_each walk deal (O, replicate W []).
Proof. reflexivity. Qed.

End Partition.

Lemma entries_permutation u1 u2 : u1 ≡ₚ u2 -> entries u1 ≡ₚ entries u2.
Proof. intros H. unfold entries. now apply Permutation_flat_map. Qed.

(** The first loop of [get_all_files], for a worker count of at least
    one. *)
Lemma assign_tasks_run (W : nat)
  (walk : list (string * list string * list string)) :
  (0 < W)%nat ->
  exists tasks,
    assign_tasks W walk = Ok (length walk, tasks)
    /\ length tasks = W
    /\ (forall i, (i < W)%nat ->
          tasks !! i = Some (bucket W i 0 (units_of walk)))
    /\ concat tasks ≡ₚ units_of walk.
Proof.
  intros HW.
  pose proof (deal_buckets W HW walk O (replicate W []) (length_replicate _ _)) as H.
  rewrite <- assign_tasks_unfold in H. simpl in H.
  eexists. split; [exact H|].
  assert (Hperm : concat (imap (fun i t => t ++ bucket W i 0 (units_of walk))
                            (replicate W [])) ≡ₚ units_of walk).
  { rewrite assign_tasks_unfold in H.
    rewrite (deal_permutation W HW walk _ _ _ _ (length_replicate _ _) H).
    clear. induction W as [|n IH]; simpl; [reflexivity|assumption]. }
  split; [now rewrite length_imap, length_replicate|].
  split; [|exact Hperm].
  intros i Hi. rewrite list_lookup_imap, lookup_replicate_2 by assumption.
  reflexivity.
Qed.

(** C5: for a worker count of at least one, the walk is dealt out into
    exactly [W] task lists; list [i] holds the units whose position in the
    walk is [i] modulo [W], in order; together the lists hold every unit,
    and every (directory, file) pair, of the walk exactly once. *)
Theorem round_robin_partition (W : nat)
  (walk : list (string * list string * list string)) :
  (0 < W)%nat ->
  exists tasks,
    assign_tasks W walk = Ok (length walk, tasks)
    /\ length tasks = W
    /\ (forall i, (i < W)%nat ->
          tasks !! i = Some (bucket W i 0 (units_of walk)))
    /\ concat tasks ≡ₚ units_of walk
    /\ entries (concat tasks) ≡ₚ entries (units_of walk).
Proof.
  intros HW.
  destruct (assign_tasks_run W walk HW) as (tasks & H1 & H2 & H3 & H4).
  exists tasks. repeat split; try assumption.
  now apply entries_permutation.
Qed.

Lemma round_robin_partition_witness :
  exists tasks,
    assign_tasks 2 [("/r", ["sub"], ["a.txt"; "b.log"]); ("/r/sub", [], ["c.txt"]);
                    ("/r/t", [], [])]
    = Ok (3%nat, tasks)
    /\ length tasks = 2%nat.
Proof.
  destruct (round_robin_partition 2
              [("/r", ["sub"], ["a.txt"; "b.log"]); ("/r/sub", [], ["c.txt"]);
               ("/r/t", [], [])]) as (tasks & H1 & H2 & _); [lia|].
  exists tasks. split; assumption.
Defined.

(** ** C1: the pool of workers against the sequential walk *)

Lemma for_each_map {A B S} (g : A -> B) (l : list A) (body : S -> B -> result S) :
  forall init,
  for_each (map g l) body init = for_each l (fun st x => body st (g x)) init.
Proof.
  induction l as [|x l IH]; intros init; [reflexivity|].
  cbn [map]. rewrite !for_each_cons.
  destruct (body init (g x)); simpl; auto.
Qed.

Lemma sum_sizes_permutation l1 l2 : l1 ≡ₚ l2 -> sum_sizes l1 = sum_sizes l2.
Proof.
  induction 1; simpl; lia.
Qed.

Lemma kept_of_units_concat os d fmts inversion fbs s tasks :
  flat_map (kept_of_units os d fmts inversion fbs s) tasks
  = kept_of_units os d fmts inversion fbs s (concat tasks).
Proof.
  unfold kept_of_units. induction tasks as [|t tasks IH]; [reflexivity|].
  simpl. now rewrite flat_map_app, IH.
Qed.

(** The merge loop of [get_all_files] over the workers' results. *)
Lemma merge_workers os d fmts inversion fbs s tasks :
  s <> "" ->
  for_each (map (get_information_about_files os d fmts inversion fbs s) tasks)
    (fun '(total_size, files_and_size, list_of_full_file_paths) r =>
       rbind r (fun '(x, y, z) =>
       Ok (total_size + x, files_and_size ++ y, list_of_full_file_paths ++ z)))
    (0, [], [])
  = Ok (add_kept (0, [], [])
          (kept_of_units os d fmts inversion fbs s (concat tasks))).
Proof.
  intros Hs. rewrite for_each_map, <- kept_of_units_concat.
  apply (for_each_additive add_kept).
  - apply add_kept_nil.
  - apply add_kept_app.
  - intros [[t n] p] u.
    rewrite get_information_about_files_kept by assumption.
    unfold add_kept. simpl. reflexivity.
Qed.

(** C1: on a static disk, with at least one worker and a non-empty
    separator, the parallel scanner and the sequential one both return, with
    the same total size, the same (name, size) pairs and the same full paths
    up to order. *)
Theorem parallel_equals_sequential os d path fmts inversion fbs s W :
  os_cpu_count os = Some W -> (0 < W)%nat -> s <> "" ->
  exists t1 n1 p1 t2 n2 p2,
    get_all_files os d path fmts inversion fbs s = Ok (t1, n1, p1)
    /\ get_all_files_windows os d path fmts inversion fbs s = Ok (t2, n2, p2)
    /\ t1 = t2 /\ n1 ≡ₚ n2 /\ p1 ≡ₚ p2.
Proof.
  intros Hcpu HW Hs.
  destruct (assign_tasks_run W (os_walk os true d path) HW)
    as (tasks & Htasks & _ & _ & Hperm).
  unfold get_all_files. rewrite Hcpu, Htasks. cbn [rbind snd].
  destruct (Nat.eqb_spec W 0) as [E|_]; [lia|].
  rewrite merge_workers by assumption.
  rewrite get_all_files_windows_kept by assumption.
  set (k1 := kept_of_units os d fmts inversion fbs s (concat tasks)).
  set (k2 := kept_of_units os d fmts inversion fbs s
               (units_of (os_walk os true d path))).
  assert (Hk : k1 ≡ₚ k2).
  { unfold k1, k2, kept_of_units. now apply Permutation_flat_map. }
  do 6 eexists. split; [reflexivity|]. split; [reflexivity|].
  simpl. split; [|split].
  - f_equal. now apply sum_sizes_permutation.
  - now apply Permutation_map.
  - now apply Permutation_map.
Qed.

Lemma parallel_equals_sequential_witness :
  exists t1 n1 p1 t2 n2 p2,
    get_all_files demo_os demo_disk "/r" (Formats ["txt"]) false None "/"
    = Ok (t1, n1, p1)
    /\ get_all_files_windows demo_os demo_disk "/r" (Formats ["txt"]) false None "/"
       = Ok (t2, n2, p2)
    /\ t1 = t2 /\ n1 ≡ₚ n2 /\ p1 ≡ₚ p2.
Proof.
  apply (parallel_equals_sequential demo_os demo_disk "/r" (Formats ["txt"])
           false None "/" 2); [reflexivity|lia|discriminate].
Defined.

(** ** C9: the size range *)

Lemma size_test_range lo hi size :
  size_test (Some (lo, hi)) size = true <-> lo <= size <= hi.
Proof. unfold size_test. rewrite andb_true_iff, !Z.leb_le. reflexivity. Qed.

(** The full paths that a scan keeps are those that pass the extension
    test, exist, and pass the size test. *)
Lemma kept_paths os d fmts inversion fbs s units full :
  In full (map snd (kept_of_units os d fmts inversion fbs s units)) <->
  exists directory files file,
    In (directory, files) units /\ In file files
    /\ full = os_path_join os directory file
    /\ get_file_by_format full fmts inversion = true
    /\ exists size, os_path_getsize d full = Success size
                    /\ size_test fbs size = true.
Proof.
  unfold kept_of_units. rewrite in_map_iff. split.
  - intros (x & <- & Hx). apply in_flat_map in Hx as ([directory files] & Hu & Hx).
    apply in_flat_map in Hx as (file & Hf & Hx). cbn [fst snd] in *.
    exists directory, files, file. unfold kept in Hx.
    destruct (get_file_by_format _ _ _) eqn:Hfmt; [|now destruct Hx].
    destruct (os_path_exists d _); [|now destruct Hx]. cbn [andb] in Hx.
    destruct (os_path_getsize d _) as [size|e] eqn:Hsz; [|now destruct Hx].
    destruct (size_test fbs size) eqn:Ht; [|now destruct Hx].
    destruct Hx as [<-|[]]. cbn [snd]. rewrite Hfmt, Hsz. eauto 10.
  - intros (directory & files & file & Hu & Hf & -> & Hfmt & size & Hsz & Ht).
    exists (Py.last_piece (Py.split_go s 0 "" (os_path_join os directory file)),
            size, os_path_join os directory file).
    split; [reflexivity|].
    apply in_flat_map. exists (directory, files). split; [assumption|].
    apply in_flat_map. exists file. split; [assumption|]. cbn [fst].
    unfold kept. rewrite Hfmt, Hsz, Ht.
    assert (E : os_path_exists d (os_path_join os directory file) = true).
    { unfold os_path_exists. apply bool_decide_eq_true.
      unfold os_path_getsize in Hsz. destruct (d !! _); [eauto|discriminate]. }
    rewrite E. now left.
Qed.

(** C9: with an active range [(lo, hi)], [lo < hi], the size test passes
    exactly the sizes from [lo] to [hi], both bounds included; and the two
    scanners keep a file exactly when it passes the extension test, still
    exists, and its size passes the size test. *)
Theorem size_range_inclusive lo hi :
  lo < hi ->
  (forall size, size_test (Some (lo, hi)) size = true <-> lo <= size <= hi)
  /\ size_test (Some (lo, hi)) lo = true
  /\ size_test (Some (lo, hi)) hi = true
  /\ (forall os d fmts inversion s units, s <> "" ->
        exists t n p,
          get_information_about_files os d fmts inversion (Some (lo, hi)) s units
          = Ok (t, n, p)
          /\ forall full,
               In full p <->
               exists directory files file,
                 In (directory, files) units /\ In file files
                 /\ full = os_path_join os directory file
                 /\ get_file_by_format full fmts inversion = true
                 /\ exists size, os_path_getsize d full = Success size
                                 /\ lo <= size <= hi)
  /\ (forall os d path fmts inversion s, s <> "" ->
        exists t n p,
          get_all_files_windows os d path fmts inversion (Some (lo, hi)) s
          = Ok (t, n, p)
          /\ forall full,
               In full p <->
               exists directory files file,
                 In (directory, files) (units_of (os_walk os true d path))
                 /\ In file files
                 /\ full = os_path_join os directory file
                 /\ get_file_by_format full fmts inversion = true
                 /\ exists size, os_path_getsize d full = Success size
                                 /\ lo <= size <= hi).
Proof.
  intros Hlt. split; [apply size_test_range|].
  split; [apply size_test_range; lia|].
  split; [apply size_test_range; lia|].
  split.
  - intros os d fmts inversion s units Hs.
    rewrite get_information_about_files_kept by assumption.
    unfold add_kept. cbn [fst snd app].
    do 3 eexists. split; [reflexivity|]. intros full.
    rewrite kept_paths. setoid_rewrite size_test_range. reflexivity.
  - intros os d path fmts inversion s Hs.
    rewrite get_all_files_windows_kept by assumption.
    unfold add_kept. cbn [fst snd app].
    do 3 eexists. split; [reflexivity|]. intros full.
    rewrite kept_paths. setoid_rewrite size_test_range. reflexivity.
Qed.

Lemma size_range_inclusive_witness :
  size_test (Some (100, 200)) 100 = true /\ size_test (Some (100, 200)) 200 = true.
Proof.
  destruct (size_range_inclusive 100 200) as (_ & H1 & H2 & _); [lia|].
  split; assumption.
Defined.

(** The scenarios of the specification. *)
Example scenario_sizes :
  map (size_test (Some (100, 200))) [50; 150; 250] = [false; true; false].
Proof. reflexivity. Qed.

Example scenario_txt :
  get_all_files_windows
    (Platform (fun _ _ _ => [("/d", [], ["a.txt"; "b.log"])]) posix_join
       (Some 1%nat) (fun _ _ _ d => Success d))
    (list_to_map [("/d/a.txt", Inode File "/d" 10 None);
                  ("/d/b.log", Inode File "/d" 20 None)])
    "/d" (Formats ["txt"]) false None "/"
  = Ok (10, [("a.txt", 10)], ["/d/a.txt"]).
Proof. vm_compute. reflexivity. Qed.

(** ** C3: the reconciler's accounting *)

Lemma scanned_size_app l1 l2 :
  scanned_size (l1 ++ l2) = scanned_size l1 + scanned_size l2.
Proof. induction l1 as [|x l1 IH]; simpl; [reflexivity|]. rewrite IH. lia. Qed.

Lemma filter_split_length {A} (p : A -> bool) (l : list A) :
  length l = (length (List.filter p l)
              + length (List.filter (fun x => negb (p x)) l))%nat.
Proof.
  induction l as [|x l IH]; [reflexivity|].
  cbn [List.filter]. destruct (p x); cbn [negb length]; lia.
Qed.

(** The loop of [get_information_about_deleted_files] from any state. *)
Lemma probe_loop d : forall files deleted not_deleted total_files total_size,
  fold_left
    (fun '(deleted_files, not_deleted_files, total_files, total_size) file =>
       match os_path_getsize d file with
       | Success file_size =>
           (deleted_files, not_deleted_files ++ [file],
            total_files - 1, total_size - file_size)
       | Failure _ =>
           (deleted_files ++ [file], not_deleted_files, total_files, total_size)
       end)
    files (deleted, not_deleted, total_files, total_size)
  = (deleted ++ List.filter (fun f => negb (still_present d f)) files,
     not_deleted ++ List.filter (still_present d) files,
     total_files - Z.of_nat (length (List.filter (still_present d) files)),
     total_size
     - fold_right (fun f acc =>
                     match os_path_getsize d f with
                     | Success size => size + acc
                     | Failure _ => acc
                     end) 0 files).
Proof.
  induction files as [|f files IH]; intros deleted not_deleted tf ts.
  - simpl. rewrite !app_nil_r, !Z.sub_0_r. reflexivity.
  - cbn [fold_left List.filter fold_right].
    assert (Hp : still_present d f
                 = match os_path_getsize d f with
                   | Success _ => true
                   | Failure _ => false
                   end) by reflexivity.
    destruct (os_path_getsize d f) as [size|e]; rewrite IH, Hp; cbn [negb].
    + rewrite <- app_assoc. cbn [length app].
      f_equal; [f_equal|]; lia.
    + rewrite <- app_assoc. reflexivity.
Qed.

(** C3: each path is classified as deleted exactly when the probe of its
    size fails; if the files still present have the size the scan saw, the
    adjusted count is the number of deleted files and the adjusted size is
    the sum of the scanned sizes of the deleted files. *)
Theorem reconciler_accounting d (scanned : list (string * Z)) :
  (forall file size size', In (file, size) scanned ->
     os_path_getsize d file = Success size' -> size' = size) ->
  let list_of_files := map fst scanned in
  let '(deleted_files, not_deleted_files, total_files, total_size) :=
    get_information_about_deleted_files d list_of_files (scanned_size scanned) in
  deleted_files = List.filter (fun f => negb (still_present d f)) list_of_files
  /\ not_deleted_files = List.filter (still_present d) list_of_files
  /\ (forall file, In file list_of_files ->
        (In file deleted_files <-> exists e, os_path_getsize d file = Failure e))
  /\ total_files = Z.of_nat (length deleted_files)
  /\ total_size
     = scanned_size (List.filter (fun x => negb (still_present d (fst x))) scanned).
Proof.
  intros Hsame. cbv zeta. unfold get_information_about_deleted_files.
  rewrite probe_loop. cbn [app].
  split; [reflexivity|]. split; [reflexivity|]. split; [|split].
  - intros file Hin. rewrite filter_In. unfold still_present.
    destruct (os_path_getsize d file) as [size|e]; split.
    + intros [_ H]; discriminate.
    + intros [e H]; discriminate.
    + eauto.
    + auto.
  - rewrite (filter_split_length (still_present d) (map fst scanned)) at 1. lia.
  - induction scanned as [|[f sz] scanned IH]; [reflexivity|].
    cbn [map fst List.filter scanned_size fold_right snd].
    assert (Hrest : forall file size size', In (file, size) scanned ->
              os_path_getsize d file = Success size' -> size' = size).
    { intros file size size' Hin. apply Hsame. now right. }
    specialize (IH Hrest). unfold scanned_size in *.
    assert (Hp : still_present d f
                 = match os_path_getsize d f with
                   | Success _ => true
                   | Failure _ => false
                   end) by reflexivity.
    destruct (os_path_getsize d f) as [size|e] eqn:E; rewrite Hp; cbn [negb].
    + rewrite (Hsame f sz size (or_introl eq_refl) E). lia.
    + cbn [fold_right snd]. lia.
Qed.

Lemma reconciler_accounting_witness :
  let '(deleted_files, not_deleted_files, total_files, total_size) :=
    get_information_about_deleted_files (delete "/r/a.txt" demo_disk)
      (map fst [("/r/a.txt", 10); ("/r/b.log", 20)])
      (scanned_size [("/r/a.txt", 10); ("/r/b.log", 20)]) in
  total_files = Z.of_nat (length deleted_files)
  /\ total_size
     = scanned_size
         (List.filter
            (fun x => negb (still_present (delete "/r/a.txt" demo_disk) (fst x)))
            [("/r/a.txt", 10); ("/r/b.log", 20)]).
Proof.
  assert (Hsame : forall file size size',
            In (file, size) [("/r/a.txt", 10); ("/r/b.log", 20)] ->
            os_path_getsize (delete "/r/a.txt" demo_disk) file = Success size' ->
            size' = size).
  { intros file size size' [E|[E|[]]]; injection E as <- <-; vm_compute;
      intros H; [discriminate H|injection H as <-; reflexivity]. }
  pose proof (reconciler_accounting (delete "/r/a.txt" demo_disk)
                [("/r/a.txt", 10); ("/r/b.log", 20)] Hsame) as H.
  cbv zeta in H.
  destruct (get_information_about_deleted_files _ _ _) as [[[dl nd] tf] ts].
  destruct H as (_ & _ & _ & H1 & H2). split; assumption.
Defined.

Example reconciler_accounting_values :
  get_information_about_deleted_files (delete "/r/a.txt" demo_disk)
    ["/r/a.txt"; "/r/b.log"] 30
  = (["/r/a.txt"], ["/r/b.log"], 1, 10).
Proof. vm_compute. reflexivity. Qed.

(** ** C7: malformed persisted state *)













Lemma check_settings_same d : check_settings d d = d.
Proof. unfold check_settings. repeat destruct (_ || _); try reflexivity.
  destruct (negb _); reflexivity. Qed.



(** ** Dates written and read back *)




















(** ** C6: the history record *)

Lemma to_date_default_first :
  to_date (VStr "0001-01-01") = Some (Date 1 1 1).
Proof. reflexivity. Qed.
























(** ** Reasoning about interactive code *)












Lemma emits_with_world {A} P (f : world -> M A) :
  (forall w0, emits P (f w0)) -> emits P (fun w => f w w).
Proof. intros H w r w' E. exact (H w w r w' E). Qed.






(** A line that does not start with a newline is not the summary of a
    delete pass. *)
Lemma not_summary_by_head line :
  String.get 0 line <> Some Py.newline ->
  is_delete_summary (Print line) = false.
Proof.
  intros H. unfold is_delete_summary. apply orb_false_iff.
  split; apply String.eqb_neq; intros ->; apply H; reflexivity.
Qed.

(** ** C8: the delete pass *)

Lemma shrinks_refl d : shrinks d d.
Proof. split; [auto|]. intros p n H _ H'. congruence. Qed.

Lemma shrinks_trans d1 d2 d3 : shrinks d1 d2 -> shrinks d2 d3 -> shrinks d1 d3.
Proof.
  intros [A1 B1] [A2 B2]. split; [auto|].
  intros p n Hp Hk Hnone q nq Hq.
  destruct (d2 !! p) as [n2|] eqn:E.
  - assert (n2 = n) as -> by (apply A1 in E; congruence).
    exact (B2 p n E Hk Hnone q nq Hq).
  - exact (B1 p n Hp Hk E q nq (A2 q nq Hq)).
Qed.

Lemma shrinks_remove d p d' : os_remove d p = Success d' -> shrinks d d'.
Proof.
  unfold os_remove. destruct (d !! p) as [n|] eqn:E; [|discriminate].
  destruct (i_kind n) eqn:K; [|discriminate].
  destruct (i_guard n); [discriminate|]. intros [= <-]. split.
  - intros q nq H. apply lookup_delete_Some in H. tauto.
  - intros q nq Hq Hk Hnone. apply lookup_delete_None in Hnone as [<-|H].
    + congruence.
    + congruence.
Qed.

Lemma shrinks_rmdir d p d' : os_rmdir d p = Success d' -> shrinks d d'.
Proof.
  unfold os_rmdir. destruct (d !! p) as [n|] eqn:E; [|discriminate].
  destruct (i_kind n) eqn:K; [discriminate|].
  destruct (has_entries d p) eqn:He; [discriminate|].
  destruct (i_guard n); [discriminate|]. intros [= <-]. split.
  - intros q nq H. apply lookup_delete_Some in H. tauto.
  - intros q nq Hq Hk Hnone x nx Hx Hpar.
    apply lookup_delete_None in Hnone as [<-|H]; [|congruence].
    apply lookup_delete_Some in Hx as [_ Hx].
    unfold has_entries in He. apply bool_decide_eq_false in He.
    apply He. apply map_Exists_lookup. eauto.
Qed.

(** A directory that still holds an entry at the end was never removed. *)
Lemma shrinks_keeps_ancestors d d' :
  shrinks d d' ->
  forall q a, inside d q a ->
  forall nq, d' !! q = Some nq ->
  forall na, d !! a = Some na -> i_kind na = Directory -> d' !! a = Some na.
Proof.
  intros [A B].
  assert (Hstep : forall q nq na, d' !! q = Some nq ->
            d !! (i_parent nq) = Some na -> i_kind na = Directory ->
            d' !! (i_parent nq) = Some na).
  { intros q nq na Hq Ha Hk.
    destruct (d' !! i_parent nq) as [na'|] eqn:E.
    - apply A in E. congruence.
    - destruct (B _ _ Ha Hk E q nq Hq eq_refl). }
  induction 1 as [q nq0 Hq0|q p np Hin IH Hp Hkp]; intros nq Hq na Ha Hk.
  - pose proof (A _ _ Hq) as Hq'. rewrite Hq0 in Hq'. injection Hq' as ->.
    eapply Hstep; eauto.
  - specialize (IH nq Hq np Hp Hkp). eapply Hstep; eauto.
Qed.

Lemma removable_after_delete d p file :
  removable_or_denied d file -> removable_or_denied (delete p d) file.
Proof.
  unfold removable_or_denied. destruct (decide (p = file)) as [->|Hne].
  - now rewrite lookup_delete_eq.
  - now rewrite lookup_delete_ne.
Qed.

Lemma trace_add_trace t w : trace (add_trace t w) = trace w ++ t.
Proof. reflexivity. Qed.

Lemma removals_app t1 t2 : removals (t1 ++ t2) = removals t1 ++ removals t2.
Proof. unfold removals. apply flat_map_app. Qed.

Lemma file_message_run s file tail w :
  s <> "" ->
  file_message s file tail w
  = (Ok tt,
     add_trace [Print ("File " +:+ Py.dquote
                       +:+ Py.last_piece (Py.split_go s 0 "" file)
                       +:+ Py.dquote +:+ tail)] w).
Proof.
  intros Hs. unfold file_message, bind, lift.
  rewrite split_nonempty by assumption. reflexivity.
Qed.

Lemma file_message_not_summary x :
  is_delete_summary (Print ("File " +:+ x)) = false.
Proof. apply not_summary_by_head. vm_compute. congruence. Qed.

Section DeletePass.

Variable os : platform.
Variables (output_files indicator_output : bool) (s : string).
Hypothesis printable : s <> "" \/ output_files = false.

Lemma failure_note_run file tail w :
  exists t,
    when output_files (file_message s file tail) w = (Ok tt, add_trace t w)
    /\ Forall quiet t /\ removals t = []
    /\ length (List.filter is_print t) = (if output_files then 1 else 0)%nat.
Proof.
  destruct output_files eqn:E; cbn [when].
  - destruct printable as [Hs|Hs]; [|discriminate].
    rewrite file_message_run by assumption. eexists. split; [reflexivity|].
    split; [|split; reflexivity].
    constructor; [|constructor]. split; [|split; reflexivity].
    apply file_message_not_summary.
  - exists []. unfold ret, add_trace. destruct w; cbn. rewrite app_nil_r.
    repeat split. constructor.
Qed.

Lemma delete_loop_run total : forall files w operations success,
  Forall (removable_or_denied (disk w)) files ->
  exists w' t,
    delete_loop output_files indicator_output s total files operations success w
    = (Ok (success && forallb removed (removals t)), w')
    /\ trace w' = trace w ++ t
    /\ config_of w' = config_of w
    /\ shrinks (disk w) (disk w')
    /\ map fst (removals t) = files
    /\ Forall quiet t
    /\ length (List.filter is_print t)
       = (if output_files
          then length (List.filter (fun r => negb (removed r)) (removals t))
          else O).
Proof.
  induction files as [|file rest IH]; intros w operations success HF.
  - exists w, []. cbn [delete_loop removals flat_map forallb List.filter length map].
    unfold ret. rewrite andb_true_r, app_nil_r.
    split; [reflexivity|]. split; [reflexivity|]. split; [reflexivity|].
    split; [apply shrinks_refl|]. split; [reflexivity|].
    split; [constructor|]. destruct output_files; reflexivity.
  - apply Forall_cons in HF as [Hfile Hrest].
    cbn [delete_loop]. unfold bind at 1.
    set (shown := negb output_files && indicator_output).
    set (ops := if shown then S operations else operations).
    assert (Hprog : exists t0,
              when shown (emit (Progress total ops)) w = (Ok tt, add_trace t0 w)
              /\ Forall quiet t0 /\ removals t0 = []
              /\ List.filter is_print t0 = []).
    { destruct shown; cbn [when].
      - eexists. split; [reflexivity|]. repeat split. repeat constructor.
      - exists []. unfold ret, add_trace. destruct w; cbn. rewrite app_nil_r.
        repeat split. constructor. }
    destruct Hprog as (t0 & -> & Q0 & R0 & P0).
    unfold bind at 1, remove_call. cbn [disk add_trace].
    unfold removable_or_denied in Hfile. unfold os_remove.
    assert (Hfail : forall e tail,
              e = FileNotFoundError \/ e = PermissionError ->
              exists w' t,
                bind (when output_files (file_message s file tail))
                  (fun _ => delete_loop output_files indicator_output s total
                              rest ops false)
                  (add_trace [Remove file (Some e)] (add_trace t0 w))
                = (Ok (success && forallb removed (removals t)), w')
                /\ trace w' = trace w ++ t
                /\ config_of w' = config_of w
                /\ shrinks (disk w) (disk w')
                /\ map fst (removals t) = file :: rest
                /\ Forall quiet t
                /\ length (List.filter is_print t)
                   = (if output_files
                      then length (List.filter (fun r => negb (removed r))
                                     (removals t))
                      else O)).
    { intros e tail He. unfold bind.
      destruct (failure_note_run file tail
                  (add_trace [Remove file (Some e)] (add_trace t0 w)))
        as (t1 & -> & Q1 & R1 & P1).
      destruct (IH (add_trace t1 (add_trace [Remove file (Some e)] (add_trace t0 w)))
                  ops false Hrest) as (w' & t2 & E2 & T2 & C2 & S2 & M2 & Q2 & P2).
      exists w', (t0 ++ [Remove file (Some e)] ++ t1 ++ t2).
      rewrite E2. rewrite !removals_app, R0, R1. cbn [removals flat_map app].
      cbn [forallb removed snd andb]. rewrite andb_false_r.
      split; [reflexivity|].
      split; [rewrite T2; cbn [trace add_trace]; now rewrite <- !app_assoc|].
      split; [exact C2|]. split; [exact S2|].
      split; [cbn [map fst]; now rewrite M2|].
      split.
      { apply Forall_app. split; [assumption|].
        apply Forall_cons. split; [repeat split|].
        apply Forall_app. split; assumption. }
      rewrite List.filter_app. cbn [List.filter is_print removed snd negb].
      rewrite ?List.filter_app, ?length_app, P0, P1, P2.
      destruct output_files; cbn [length]; lia. }
    destruct (disk w !! file) as [n|] eqn:E.
    + destruct Hfile as [Hk Hg]. rewrite Hk.
      destruct Hg as [Hg|[Hg|Hg]]; rewrite Hg.
      * destruct (IH (add_trace [Remove file None]
                        (set_disk (delete file (disk w)) (add_trace t0 w)))
                    ops success) as (w' & t2 & E2 & T2 & C2 & S2 & M2 & Q2 & P2).
        { cbn [disk set_disk add_trace].
          eapply Forall_impl; [exact Hrest|]. intros f. apply removable_after_delete. }
        exists w', (t0 ++ [Remove file None] ++ t2).
        rewrite E2. rewrite !removals_app, R0. cbn [removals flat_map app].
        cbn [forallb removed snd andb].
        split; [reflexivity|].
        split; [rewrite T2; cbn [trace add_trace set_disk]; now rewrite <- !app_assoc|].
        split; [exact C2|].
        split.
        { eapply shrinks_trans; [|exact S2]. cbn [disk set_disk add_trace].
          apply (shrinks_remove _ file). unfold os_remove. now rewrite E, Hk, Hg. }
        split; [cbn [map fst]; now rewrite M2|].
        split.
        { apply Forall_app. split; [assumption|].
          apply Forall_cons. split; [repeat split|assumption]. }
        rewrite List.filter_app. cbn [List.filter is_print removed snd negb].
        rewrite ?length_app, P0, P2. reflexivity.
      * apply Hfail. now right.
      * apply Hfail. now left.
    + apply Hfail. now left.
Qed.

Lemma rmdir_step subdirectory w :
  exists w',
    bind (rmdir_call subdirectory) (fun _ => ret tt) w = (Ok tt, w')
    /\ config_of w' = config_of w
    /\ shrinks (disk w) (disk w')
    /\ exists t, trace w' = trace w ++ t /\ Forall quiet t /\ removals t = []
                 /\ List.filter is_print t = [].
Proof.
  unfold bind, rmdir_call, ret.
  destruct (os_rmdir (disk w) subdirectory) as [d'|e] eqn:E; eexists;
    (split; [reflexivity|]); (split; [reflexivity|]).
  - split; [cbn; eauto using shrinks_rmdir|].
    eexists. split; [reflexivity|]. repeat split. repeat constructor.
  - split; [apply shrinks_refl|].
    eexists. split; [reflexivity|]. repeat split. repeat constructor.
Qed.

Lemma swept_refl w : swept w w.
Proof.
  split; [reflexivity|]. split; [apply shrinks_refl|].
  exists []. rewrite app_nil_r. repeat split. constructor.
Qed.

Lemma swept_trans w1 w2 w3 : swept w1 w2 -> swept w2 w3 -> swept w1 w3.
Proof.
  intros (C1 & S1 & t1 & T1 & Q1 & R1 & P1) (C2 & S2 & t2 & T2 & Q2 & R2 & P2).
  split; [congruence|]. split; [eauto using shrinks_trans|].
  exists (t1 ++ t2). rewrite T2, T1, app_assoc, removals_app, R1, R2, List.filter_app, P1, P2.
  repeat split. now apply Forall_app.
Qed.

Lemma for_each_M_swept {A} (l : list A) (body : A -> M unit) :
  (forall x w, exists w', body x w = (Ok tt, w') /\ swept w w') ->
  forall w, exists w', for_each_M l body w = (Ok tt, w') /\ swept w w'.
Proof.
  intros Hb. induction l as [|x l IH]; intros w; cbn [for_each_M].
  - exists w. split; [reflexivity|apply swept_refl].
  - unfold bind. destruct (Hb x w) as (w1 & -> & S1).
    destruct (IH w1) as (w2 & -> & S2). exists w2.
    split; [reflexivity|]. eapply swept_trans; eauto.
Qed.

Lemma cleanup_sweep_run paths w :
  exists w', cleanup_sweep os paths w = (Ok tt, w') /\ swept w w'.
Proof.
  unfold cleanup_sweep. apply for_each_M_swept. intros path w0.
  apply for_each_M_swept. intros [[root dirnames] files] w1.
  apply for_each_M_swept. intros nested_dir w2.
  destruct (rmdir_step (os_path_join os root nested_dir) w2) as (w' & E & H).
  exists w'. split; [exact E|exact H].
Qed.

End DeletePass.

Lemma forallb_count {A} (p : A -> bool) (l : list A) :
  forallb p l = true <-> length (List.filter p l) = length l.
Proof.
  induction l as [|x l IH]; [easy|]. cbn [forallb List.filter].
  pose proof (List.filter_length_le p l).
  destruct (p x); cbn [andb length]; [rewrite IH; lia|].
  split; [discriminate|lia].
Qed.

(** C8, as stated, fails: the pass reports no count.  With two targeted
    files, a pass that removes one of them and a pass that removes none
    return the same value and print the same lines. *)
Lemma delete_pass_report_counterexample :
  let run d :=
    deleting_files_and_directories demo_os ["/r/a.txt"; "/r/b.log"] ["/r"]
      false false "/" (demo_world [] d Absent) in
  fst (run demo_disk) = fst (run demo_locked_disk)
  /\ List.filter is_console (trace (snd (run demo_disk)))
     = List.filter is_console (trace (snd (run demo_locked_disk)))
  /\ length (List.filter removed (removals (trace (snd (run demo_disk))))) = 1%nat
  /\ length (List.filter removed (removals (trace (snd (run demo_locked_disk)))))
     = 0%nat.
Proof. vm_compute. repeat split. Qed.

(** A removal that fails with another error than "not found" or
    "permission denied" ends the pass: the files after it are not tried. *)
Example delete_pass_other_error :
  let run :=
    deleting_files_and_directories demo_os ["/r/a.txt"; "/r/sub/c.txt"] ["/r"]
      false false "/" (demo_world [] demo_readonly_disk Absent) in
  fst run = Raise (OSError OtherOSError)
  /\ removals (trace (snd run)) = [("/r/a.txt", Some OtherOSError)].
Proof. vm_compute. split; reflexivity. Qed.

(** C8, amended: when every removal succeeds or fails as not found or
    permission denied, the pass tries every file, once and in order, and
    ends normally.  It keeps no count and no list of failures: its report
    is the closing line, which says "cleared" exactly when all n removals
    succeeded, preceded by one line per failure only if the file listing is
    on.  A directory that still holds an entry at the end, directly or
    through sub-directories, is still there. *)
Theorem delete_pass_partial_failure os list_of_files paths output_files
  indicator_output s w :
  s <> "" \/ output_files = false ->
  Forall (removable_or_denied (disk w)) list_of_files ->
  exists w' t,
    deleting_files_and_directories os list_of_files paths output_files
      indicator_output s w = (Ok tt, w')
    /\ trace w'
       = trace w ++ t
         ++ [Print (if forallb removed (removals t)
                    then cleared_line else not_cleared_line)]
    /\ map fst (removals t) = list_of_files
    /\ (forallb removed (removals t) = true <->
        length (List.filter removed (removals t)) = length list_of_files)
    /\ length (List.filter is_print t)
       = (if output_files
          then (length list_of_files
                - length (List.filter removed (removals t)))%nat
          else O)
    /\ (forall q a nq na,
          disk w' !! q = Some nq -> inside (disk w) q a ->
          disk w !! a = Some na -> i_kind na = Directory ->
          disk w' !! a = Some na).
Proof.
  intros Hs HF. unfold deleting_files_and_directories, bind.
  destruct (delete_loop_run output_files indicator_output s Hs
              (length list_of_files) list_of_files w O true HF)
    as (w1 & t1 & -> & T1 & C1 & S1 & M1 & Q1 & P1).
  destruct (cleanup_sweep_run os paths w1)
    as (w2 & -> & C2 & S2 & t2 & T2 & Q2 & R2 & P2).
  cbn [andb].
  assert (Hlen : length (removals (t1 ++ t2)) = length list_of_files).
  { rewrite removals_app, R2, app_nil_r, <- M1. now rewrite length_map. }
  assert (HR : removals (t1 ++ t2) = removals t1).
  { now rewrite removals_app, R2, app_nil_r. }
  exists (add_trace [Print (if forallb removed (removals t1)
                            then cleared_line else not_cleared_line)] w2).
  exists (t1 ++ t2). rewrite HR. split.
  { destruct (forallb removed (removals t1)); reflexivity. }
  split; [cbn [trace add_trace]; rewrite T2, T1, <- !app_assoc; reflexivity|].
  split; [exact M1|].
  rewrite HR in Hlen.
  split; [rewrite forallb_count; now rewrite Hlen|].
  split.
  { rewrite List.filter_app, length_app, P1, P2. cbn [length].
    destruct output_files; [|reflexivity].
    rewrite <- Hlen.
    rewrite (filter_split_length removed (removals t1)) at 1. lia. }
  intros q a nq na Hq Hin Ha Hk. cbn [disk add_trace] in *.
  exact (shrinks_keeps_ancestors (disk w) (disk w2)
           (shrinks_trans _ _ _ S1 S2) q a Hin nq Hq na Ha Hk).
Qed.

Lemma delete_pass_partial_failure_witness :
  exists w' t,
    deleting_files_and_directories demo_os ["/r/a.txt"; "/r/b.log"] ["/r"]
      true false "/" (demo_world [] demo_disk Absent) = (Ok tt, w')
    /\ map fst (removals t) = ["/r/a.txt"; "/r/b.log"].
Proof.
  destruct (delete_pass_partial_failure demo_os ["/r/a.txt"; "/r/b.log"] ["/r"]
              true false "/" (demo_world [] demo_disk Absent))
    as (w' & t & H1 & _ & H2 & _).
  - left. discriminate.
  - apply Forall_cons. split; [vm_compute; tauto|].
    apply Forall_cons. split; [vm_compute; tauto|]. constructor.
  - exists w', t. split; assumption.
Defined.

(** ** C4: when the history is updated *)

Lemma emits_bind_returns {A B} P (Q : A -> Prop) (m : M A) (k : A -> M B) :
  emits P m -> returns Q m -> (forall a, Q a -> emits P (k a)) ->
  emits P (bind m k).
Proof.
  intros Hm HQ Hk w r w'. unfold bind.
  destruct (m w) as [[a|e] w1] eqn:E.
  - intros H. pose proof (HQ _ _ _ E) as Qa.
    apply Hm in E as (C1 & t1 & T1 & F1).
    apply (Hk a Qa) in H as (C2 & t2 & T2 & F2). split; [congruence|].
    exists (t1 ++ t2). rewrite T2, T1, app_assoc. split; [reflexivity|].
    now apply Forall_app.
  - intros [= <- <-]. now apply Hm in E.
Qed.















Lemma traces_weaken {A} (P Q : event -> Prop) (m : M A) :
  (forall e, P e -> Q e) -> traces P m -> traces Q m.
Proof.
  intros HPQ Hm w r w' E. apply Hm in E as (t & T & F).
  exists t. split; [assumption|]. eapply Forall_impl; eauto.
Qed.

Lemma quiet_settled e : quiet e -> settled e.
Proof. intros (H1 & _ & H3). now split. Qed.














(** The demo pass: the user confirms twice; [b.log] cannot be removed; the
    delete pass still ends, [True] is returned, and the history is updated
    with the two files that are gone. *)
Example update_after_partial_failure :
  let run :=
    execute_and_reconcile demo_os demo_files ["/r"] ["/r"] false false false
      35 "/" (demo_world ["yes"; "yes"; "no"] demo_disk Absent) in
  fst run = Ok tt
  /\ removals (trace (snd run))
     = [("/r/a.txt", None); ("/r/b.log", Some PermissionError);
        ("/r/sub/c.txt", None)]
  /\ data_json (snd run)
     = Content (Some (VDict (updated_data demo_day 2 15 default_data))).
Proof. vm_compute. repeat split. Qed.

(** A copy leaves the history alone. *)
Example no_update_after_copy :
  let run :=
    execute_and_reconcile demo_os demo_files ["/r"] ["/r"; "/r/sub"] false
      false false 35 "/"
      (demo_world ["1"; "2"; "yes"] demo_disk Absent) in
  fst run = Ok tt
  /\ existsb is_transfer (trace (snd run)) = true
  /\ existsb is_save_data (trace (snd run)) = false
  /\ data_json (snd run) = Absent.
Proof. vm_compute. repeat split. Qed.
